(** * School management system: fee reconciliation and timetable slots

    A shallow embedding of the two logic-bearing parts of the backend,

    - [api/endpoints/payments.py]: the FeeRecord and Payment handlers, with
      the balance/status recomputation they perform inline, and
    - [api/endpoints/timetables.py]: the TimetableSlot handlers, with the
      overlap query they run before inserting or updating a slot,

    together with the properties of the specification that concern them.

    Modelling conventions.

    - A handler is a function from the database to a response and the
      database after the request.  A handler that raises leaves the
      database as it found it: nothing is committed before the raise.  A
      fee record returned with a NULL [paid_amount] fails the validation
      of the response model after the commit.
    - A table is the list of its rows.  [select(..).where(id == i)] followed
      by [.first()] is [first_by_id]; mutating the returned object and
      committing is [commit_row]; [db.add] and commit is [insert_row];
      [db.delete] and commit is [delete_row].
    - Amounts are Python floats in the source.  They are modelled as exact
      rationals [Q]: every finite float is a rational and the comparisons
      agree; rounding of [+] and [-], infinities and NaN are not modelled.
      The properties below are stated on the results of the operations as
      the code performs them, in its order, and use of the arithmetic only
      what also holds of correctly rounded floats; where rounding decides
      ([(p + x) - x] need not be [p]) the floats themselves are evaluated
      ([paid_after_new_then_removed]).  Equality of amounts is [Qeq],
      written [==].
    - The rows carry the columns that the handlers compute with and the
      NOT NULL columns that an update request can set.  Left out are the
      columns that decide no response: the student and the fee structure
      of a fee record, the transaction id, receipt number and notes of a
      payment, and the descriptive columns of a timetable.
    - A field of an update schema, declared [Optional[..] = None], is left
      out of the request, sent as [null], or sent with a value ([Field]);
      [dict(exclude_unset=True)] keeps the last two.  A NULL assigned to a
      NOT NULL column makes the commit fail; [paid_amount] of a fee record
      is the one nullable amount column.
    - Primary keys are assigned as the default engine (SQLite) does, which
      also enforces NOT NULL but not foreign keys.
*)

From Stdlib Require Import List Bool Arith ZArith QArith String Lia Lqa Floats.
Import ListNotations.

Set Implicit Arguments.

(** ** Responses *)

(** Exceptions that no handler catches; the framework turns them into a
    500 response. *)
Inductive Exception : Type :=
| IntegrityError             (* a NOT NULL column received NULL at commit *)
| TypeError                  (* arithmetic on [None] *)
| ResponseValidationError.   (* the returned object does not fit the response model *)

Inductive Response (A : Type) : Type :=
| Ok (body : A)
| HTTPException (status_code : Z) (detail : string)
| Unhandled (e : Exception).

Arguments Ok {A} body.
Arguments HTTPException {A} status_code detail.
Arguments Unhandled {A} e.

Definition HTTP_404_NOT_FOUND : Z := 404.
Definition HTTP_400_BAD_REQUEST : Z := 400.

Definition is_ok {A : Type} (r : Response A) : bool :=
  match r with Ok _ => true | _ => false end.

(** ** Fields of update requests *)

(** A field of an update request whose schema declares it
    [Optional[..] = None]: left out of the request, sent as [null], or
    sent with a value.  [dict(exclude_unset=True)] keeps the last two. *)
Inductive Field (A : Type) : Type :=
| Unset
| Null
| Value (a : A).

Arguments Unset {A}.
Arguments Null {A}.
Arguments Value {A} a.

(** The attribute [request.f] read by a handler: [None] for a field left
    out or sent as [null]. *)
Definition attr {A : Type} (f : Field A) : option A :=
  match f with Value a => Some a | _ => None end.



(** [setattr] on a NOT NULL column, and what the commit makes of it:
    [None] when the column would receive NULL. *)
Definition setattr_required {A : Type} (f : Field A) (old : A) : option A :=
  match f with
  | Unset => Some old
  | Null => None
  | Value a => Some a
  end.

(** [setattr] on a nullable column. *)
Definition setattr_nullable {A : Type} (f : Field A) (old : option A) : option A :=
  match f with
  | Unset => old
  | Null => None
  | Value a => Some a
  end.

(** ** Tables *)

Section Table.
Variable Row : Type.
Variable row_id : Row -> Z.

(** [select(Row).where(Row.id == i)], then [result.scalars().first()]. *)
Definition first_by_id (i : Z) (rows : list Row) : option Row :=
  find (fun r => (row_id r =? i)%Z) rows.

(** The object returned by [first()] was mutated into [r'] and committed:
    the row it came from is replaced. *)
Fixpoint commit_row (r' : Row) (rows : list Row) : list Row :=
  match rows with
  | [] => []
  | r :: rest =>
      if (row_id r =? row_id r')%Z then r' :: rest
      else r :: commit_row r' rest
  end.

(** [db.delete(obj)] and commit. *)
Fixpoint delete_row (i : Z) (rows : list Row) : list Row :=
  match rows with
  | [] => []
  | r :: rest =>
      if (row_id r =? i)%Z then rest else r :: delete_row i rest
  end.

(** The integer primary key given to a new row: one more than the largest
    key in the table, 1 for an empty table. *)
Definition fresh_id (rows : list Row) : Z :=
  (1 + fold_right (fun r m => Z.max (row_id r) m) 0 rows)%Z.

(** [db.add(obj)] and commit. *)
Definition insert_row (r : Row) (rows : list Row) : list Row :=
  rows ++ [r].
End Table.

(** ** Fees and payments: [models/payment.py], [api/endpoints/payments.py] *)

Module Payments.

Inductive PaymentStatus : Type :=
| PENDING | PAID | PARTIALLY_PAID | OVERDUE | CANCELLED | REFUNDED.

Inductive PaymentMethod : Type :=
| CASH | CREDIT_CARD | DEBIT_CARD | BANK_TRANSFER | CHECK | ONLINE_PAYMENT
| OTHER.

(** A [date] as its ordinal, a [datetime] as its timestamp. *)
Definition date : Type := Z.
Definition datetime : Type := Z.

(** Row of [fee_records].  [paid_amount] is the nullable column
    ([Column(Float, default=0.0)]); [None] is NULL.  The other columns
    listed are NOT NULL. *)
Record FeeRecord : Type := mkFeeRecord {
  fr_id : Z;
  academic_year : string;
  term : string;
  total_amount : Q;
  paid_amount : option Q;
  balance : Q;
  status : PaymentStatus;
  due_date : date
}.

(** Request schema [FeeRecordCreate]: the client supplies every field,
    [balance] included; none of them may be [null]. *)
Record FeeRecordCreate : Type := mkFeeRecordCreate {
  frc_academic_year : string;
  frc_term : string;
  frc_total_amount : Q;
  frc_paid_amount : Q;
  frc_balance : Q;
  frc_status : PaymentStatus;
  frc_due_date : date
}.

(** Request schema [FeeRecordUpdate]. *)
Record FeeRecordUpdate : Type := mkFeeRecordUpdate {
  fru_academic_year : Field string;
  fru_term : Field string;
  fru_total_amount : Field Q;
  fru_paid_amount : Field Q;
  fru_balance : Field Q;
  fru_status : Field PaymentStatus;
  fru_due_date : Field date
}.

(** Row of [payments]; the columns listed are NOT NULL. *)
Record Payment : Type := mkPayment {
  p_id : Z;
  amount : Q;
  payment_date : datetime;
  payment_method : PaymentMethod;
  fee_record_id : Z
}.

(** Request schema [PaymentCreate]. *)
Record PaymentCreate : Type := mkPaymentCreate {
  pc_amount : Q;
  pc_payment_date : datetime;
  pc_payment_method : PaymentMethod;
  pc_fee_record_id : Z
}.

(** Request schema [PaymentUpdate]. *)
Record PaymentUpdate : Type := mkPaymentUpdate {
  pu_amount : Field Q;
  pu_payment_date : Field datetime;
  pu_payment_method : Field PaymentMethod
}.

Record Db : Type := mkDb {
  fee_records : list FeeRecord;
  payments : list Payment
}.

(** Python [x > y] on amounts. *)
Definition Qgt_bool (x y : Q) : bool :=
  (Qnum y * QDen x <? Qnum x * QDen y)%Z.

(** *** Balance reconciliation, as written inline in the three handlers *)

(** [create_payment], lines 495-502.  [None]: [paid_amount] is NULL and
    [+=] raises TypeError.  There is no final [else]: the status is left
    as it was when neither test succeeds. *)
Definition apply_new_payment (fee_record : FeeRecord) (amt : Q) : option FeeRecord :=
  match paid_amount fee_record with
  | None => None
  | Some old_paid =>
      let paid := old_paid + amt in
      let bal := total_amount fee_record - paid in
      Some {| fr_id := fr_id fee_record;
              academic_year := academic_year fee_record;
              term := term fee_record;
              total_amount := total_amount fee_record;
              paid_amount := Some paid;
              balance := bal;
              due_date := due_date fee_record;
              status := if Qle_bool bal 0 then PAID
                        else if Qgt_bool paid 0 then PARTIALLY_PAID
                        else status fee_record |}
  end.

(** [update_payment], lines 573-582, for a payment whose new amount is a
    number.  [None]: [paid_amount] is NULL and [-] raises TypeError. *)
Definition apply_amended_payment (fee_record : FeeRecord)
           (original_amount new_amount : Q) : option FeeRecord :=
  match paid_amount fee_record with
  | None => None
  | Some old_paid =>
      let paid := old_paid - original_amount + new_amount in
      let bal := total_amount fee_record - paid in
      Some {| fr_id := fr_id fee_record;
              academic_year := academic_year fee_record;
              term := term fee_record;
              total_amount := total_amount fee_record;
              paid_amount := Some paid;
              balance := bal;
              due_date := due_date fee_record;
              status := if Qle_bool bal 0 then PAID
                        else if Qgt_bool paid 0 then PARTIALLY_PAID
                        else PENDING |}
  end.

(** [delete_payment], lines 611-618.  [None]: [paid_amount] is NULL and
    [-=] raises TypeError.  Only [paid_amount] is tested. *)
Definition apply_removed_payment (fee_record : FeeRecord) (amt : Q) : option FeeRecord :=
  match paid_amount fee_record with
  | None => None
  | Some old_paid =>
      let paid := old_paid - amt in
      let bal := total_amount fee_record - paid in
      Some {| fr_id := fr_id fee_record;
              academic_year := academic_year fee_record;
              term := term fee_record;
              total_amount := total_amount fee_record;
              paid_amount := Some paid;
              balance := bal;
              due_date := due_date fee_record;
              status := if Qle_bool paid 0 then PENDING else PARTIALLY_PAID |}
  end.



(** *** FeeRecord handlers *)

(** A fee record returned by a handler is validated against
    [FeeRecordResponse], whose [paid_amount] is a [float]. *)
Definition fee_record_response (fee_record : FeeRecord) : Response FeeRecord :=
  match paid_amount fee_record with
  | Some _ => Ok fee_record
  | None => Unhandled ResponseValidationError
  end.

(** [create_fee_record]: the row is built from the request's fields as
    they are, added and committed. *)
Definition create_fee_record (fee_record_in : FeeRecordCreate) (db : Db)
  : Response FeeRecord * Db :=
  let fee_record :=
    {| fr_id := fresh_id fr_id (fee_records db);
       academic_year := frc_academic_year fee_record_in;
       term := frc_term fee_record_in;
       total_amount := frc_total_amount fee_record_in;
       paid_amount := Some (frc_paid_amount fee_record_in);
       balance := frc_balance fee_record_in;
       status := frc_status fee_record_in;
       due_date := frc_due_date fee_record_in |} in
  (fee_record_response fee_record,
   {| fee_records := insert_row fee_record (fee_records db);
      payments := payments db |}).


(** The loop [for field, value in update_data.items(): setattr(..)] of
    [update_fee_record] and the commit after it.  [None] when the commit
    fails on a NOT NULL column. *)
Definition set_fee_record_fields (fee_record : FeeRecord)
           (fee_record_in : FeeRecordUpdate) : option FeeRecord :=
  match setattr_required (fru_academic_year fee_record_in) (academic_year fee_record),
        setattr_required (fru_term fee_record_in) (term fee_record),
        setattr_required (fru_total_amount fee_record_in) (total_amount fee_record),
        setattr_required (fru_balance fee_record_in) (balance fee_record),
        setattr_required (fru_status fee_record_in) (status fee_record),
        setattr_required (fru_due_date fee_record_in) (due_date fee_record) with
  | Some academic_year', Some term', Some total_amount', Some balance',
    Some status', Some due_date' =>
      Some {| fr_id := fr_id fee_record;
              academic_year := academic_year';
              term := term';
              total_amount := total_amount';
              paid_amount :=
                setattr_nullable (fru_paid_amount fee_record_in) (paid_amount fee_record);
              balance := balance';
              status := status';
              due_date := due_date' |}
  | _, _, _, _, _, _ => None
  end.

(** [update_fee_record]. *)
Definition update_fee_record (fee_record_id' : Z) (fee_record_in : FeeRecordUpdate)
           (db : Db) : Response FeeRecord * Db :=
  match first_by_id fr_id fee_record_id' (fee_records db) with
  | None => (HTTPException HTTP_404_NOT_FOUND "Fee record not found", db)
  | Some fee_record =>
      match set_fee_record_fields fee_record fee_record_in with
      | None => (Unhandled IntegrityError, db)
      | Some fee_record' =>
          (fee_record_response fee_record',
           {| fee_records := commit_row fr_id fee_record' (fee_records db);
              payments := payments db |})
      end
  end.

(** *** Payment handlers *)

(** [create_payment]. *)
Definition create_payment (payment_in : PaymentCreate) (db : Db)
  : Response Payment * Db :=
  match first_by_id fr_id (pc_fee_record_id payment_in) (fee_records db) with
  | None => (HTTPException HTTP_404_NOT_FOUND "Fee record not found", db)
  | Some fee_record =>
      let payment :=
        {| p_id := fresh_id p_id (payments db);
           amount := pc_amount payment_in;
           payment_date := pc_payment_date payment_in;
           payment_method := pc_payment_method payment_in;
           fee_record_id := pc_fee_record_id payment_in |} in
      match apply_new_payment fee_record (pc_amount payment_in) with
      | None => (Unhandled TypeError, db)
      | Some fee_record' =>
          (Ok payment,
           {| fee_records := commit_row fr_id fee_record' (fee_records db);
              payments := insert_row payment (payments db) |})
      end
  end.

(** The guard of [update_payment], line 566:
    ["amount" in update_data and update_data["amount"] != original_amount].
    [None != x] is true. *)
Definition amount_was_updated (payment_in : PaymentUpdate) (original_amount : Q) : bool :=
  match pu_amount payment_in with
  | Unset => false
  | Null => true
  | Value a => negb (Qeq_bool a original_amount)
  end.

(** The loop [for field, value in update_data.items(): setattr(..)] of
    [update_payment] and the commit after it.  [None] when the commit
    fails on a NOT NULL column. *)
Definition set_payment_fields (payment : Payment) (payment_in : PaymentUpdate)
  : option Payment :=
  match setattr_required (pu_amount payment_in) (amount payment),
        setattr_required (pu_payment_date payment_in) (payment_date payment),
        setattr_required (pu_payment_method payment_in) (payment_method payment) with
  | Some amount', Some payment_date', Some payment_method' =>
      Some {| p_id := p_id payment;
              amount := amount';
              payment_date := payment_date';
              payment_method := payment_method';
              fee_record_id := fee_record_id payment |}
  | _, _, _ => None
  end.

(** [update_payment].  When the guard of line 566 holds, [payment.amount]
    after the assignment loop is the [amount] of the request, [None] when
    that was sent as [null]: then line 573 raises TypeError.  [commit] is
    lines 584-586 with the fee records as they are by then. *)
Definition update_payment (payment_id : Z) (payment_in : PaymentUpdate) (db : Db)
  : Response Payment * Db :=
  match first_by_id p_id payment_id (payments db) with
  | None => (HTTPException HTTP_404_NOT_FOUND "Payment not found", db)
  | Some payment =>
      let original_amount := amount payment in
      let commit (fee_records' : list FeeRecord) : Response Payment * Db :=
        match set_payment_fields payment payment_in with
        | None => (Unhandled IntegrityError, db)
        | Some payment' =>
            (Ok payment',
             {| fee_records := fee_records';
                payments := commit_row p_id payment' (payments db) |})
        end in
      if amount_was_updated payment_in original_amount then
        match first_by_id fr_id (fee_record_id payment) (fee_records db) with
        | Some fee_record =>
            match attr (pu_amount payment_in) with
            | None => (Unhandled TypeError, db)
            | Some new_amount =>
                match apply_amended_payment fee_record original_amount new_amount with
                | None => (Unhandled TypeError, db)
                | Some fee_record' =>
                    commit (commit_row fr_id fee_record' (fee_records db))
                end
            end
        | None => commit (fee_records db)
        end
      else commit (fee_records db)
  end.

(** [delete_payment]. *)
Definition delete_payment (payment_id : Z) (db : Db) : Response Payment * Db :=
  match first_by_id p_id payment_id (payments db) with
  | None => (HTTPException HTTP_404_NOT_FOUND "Payment not found", db)
  | Some payment =>
      match first_by_id fr_id (fee_record_id payment) (fee_records db) with
      | Some fee_record =>
          match apply_removed_payment fee_record (amount payment) with
          | None => (Unhandled TypeError, db)
          | Some fee_record' =>
              (Ok payment,
               {| fee_records := commit_row fr_id fee_record' (fee_records db);
                  payments := delete_row p_id payment_id (payments db) |})
          end
      | None =>
          (Ok payment,
           {| fee_records := fee_records db;
              payments := delete_row p_id payment_id (payments db) |})
      end
  end.

(** A request that sets only [amount]. *)
Definition only_amount (f : Field Q) : PaymentUpdate :=
  {| pu_amount := f; pu_payment_date := Unset; pu_payment_method := Unset |}.

(** *** Payment events *)

Inductive Event : Type :=
| NewPayment (amt : Q)
| AmendedPayment (old_amount new_amount : Q)
| RemovedPayment (amt : Q).

(** What the handler serving the event does to the owning FeeRecord:
    [create_payment] for [NewPayment], [update_payment] on a payment of
    amount [old_amount] with a request setting [amount] to [new_amount]
    for [AmendedPayment], [delete_payment] for [RemovedPayment].  [None]
    when the handler raises TypeError. *)
Definition reconcileBalance (record : FeeRecord) (event : Event) : option FeeRecord :=
  match event with
  | NewPayment a => apply_new_payment record a
  | AmendedPayment o n =>
      if amount_was_updated (only_amount (Value n)) o
      then apply_amended_payment record o n
      else Some record
  | RemovedPayment a => apply_removed_payment record a
  end.


(** A request to one of the three payment operations. *)
Inductive PaymentRequest : Type :=
| PostPayment (payment_in : PaymentCreate)
| PutPayment (payment_id : Z) (payment_in : PaymentUpdate)
| DeletePayment (payment_id : Z).

(** The database after the request has been served. *)
Definition serve (request : PaymentRequest) (db : Db) : Db :=
  match request with
  | PostPayment payment_in => snd (create_payment payment_in db)
  | PutPayment payment_id payment_in => snd (update_payment payment_id payment_in db)
  | DeletePayment payment_id => snd (delete_payment payment_id db)
  end.

(** The databases after each request of a sequence, in order. *)
Fixpoint request_trace (db : Db) (requests : list PaymentRequest) : list Db :=
  match requests with
  | [] => []
  | q :: rest =>
      let db' := serve q db in
      db' :: request_trace db' rest
  end.

(** The invariant of the data model. *)
Definition balance_consistent (record : FeeRecord) : Prop :=
  match paid_amount record with
  | Some paid => balance record == total_amount record - paid
  | None => False
  end.

(** Status derivation table of the specification, in its order. *)
Definition derived_status (bal paid : Q) : PaymentStatus :=
  if Qle_bool bal 0 then PAID
  else if Qgt_bool paid 0 then PARTIALLY_PAID
  else PENDING.

(** *** Read handlers *)

(** [get_fee_record]. *)
Definition get_fee_record (fee_record_id' : Z) (db : Db) : Response FeeRecord * Db :=
  match first_by_id fr_id fee_record_id' (fee_records db) with
  | None => (HTTPException HTTP_404_NOT_FOUND "Fee record not found", db)
  | Some fee_record => (fee_record_response fee_record, db)
  end.


(** [get_payments_by_fee_record]: the payments whose [fee_record_id] is
    the given one; the fee record itself is not looked up. *)
Definition get_payments_by_fee_record (fee_record_id' : Z) (db : Db)
  : Response (list Payment) * Db :=
  (Ok (filter (fun p => (fee_record_id p =? fee_record_id')%Z) (payments db)), db).

(** The body of an [Ok] response holding a list, [[]] otherwise. *)
Definition listed {A : Type} (response : Response (list A)) : list A :=
  match response with Ok l => l | _ => [] end.

(** *** Vocabulary of the properties *)

(** The stored FeeRecord with the given id, if any. *)
Definition fee_record_of (i : Z) (db : Db) : option FeeRecord :=
  first_by_id fr_id i (fee_records db).

(** The payments stored for the fee record [i]. *)
Definition payments_of (i : Z) (db : Db) : list Payment :=
  listed (fst (get_payments_by_fee_record i db)).

(** [r'] is [r] after one of the three recomputations: same id and
    total, [balance] assigned from the new [paid_amount]. *)
Definition recomputed (r r' : FeeRecord) : Prop :=
  fr_id r' = fr_id r
  /\ total_amount r' = total_amount r
  /\ balance_consistent r'.

(** The request is a payment event on the fee record [i]: it creates a
    payment for it, or updates or deletes one of its payments. *)
Definition is_event_on (i : Z) (request : PaymentRequest) (db : Db) : bool :=
  match request with
  | PostPayment payment_in => (pc_fee_record_id payment_in =? i)%Z
  | PutPayment payment_id _ | DeletePayment payment_id =>
      match first_by_id p_id payment_id (payments db) with
      | Some payment => (fee_record_id payment =? i)%Z
      | None => false
      end
  end.

(** The fee record [i] is stored with a number as [paid_amount], and
    the invariant holds on it or no payment is stored for it yet. *)
Definition ready_at (i : Z) (db : Db) : Prop :=
  exists r paid,
    fee_record_of i db = Some r
    /\ paid_amount r = Some paid
    /\ (balance_consistent r \/ payments_of i db = []).

(** The fee record [i] is stored and the invariant holds on it. *)
Definition consistent_at (i : Z) (db : Db) : Prop :=
  exists r, fee_record_of i db = Some r /\ balance_consistent r.

(** The invariant holds on the fee record [i] after each request of the
    sequence that is a payment event on it. *)
Fixpoint consistent_after_each_event (i : Z) (db : Db)
         (requests : list PaymentRequest) : Prop :=
  match requests with
  | [] => True
  | q :: rest =>
      (is_event_on i q db = true -> consistent_at i (serve q db))
      /\ consistent_after_each_event i (serve q db) rest
  end.

(** *** Scenarios *)

Definition empty_db : Db := {| fee_records := []; payments := [] |}.

(** The database after a request. *)
Definition after {A : Type} (handler : Db -> Response A * Db) (db : Db) : Db :=
  snd (handler db).

(** A fee record creation request of the scenarios, with the given
    amounts and status. *)
Definition fee_record_request (total paid bal : Q) (s : PaymentStatus)
  : FeeRecordCreate :=
  {| frc_academic_year := "2024-2025"; frc_term := "1";
     frc_total_amount := total; frc_paid_amount := paid; frc_balance := bal;
     frc_status := s; frc_due_date := 739000%Z |}.

(** The row with id 1 that such a request creates, with the given
    amounts and status. *)
Definition fee_record_1 (total paid bal : Q) (s : PaymentStatus) : FeeRecord :=
  {| fr_id := 1; academic_year := "2024-2025"; term := "1";
     total_amount := total; paid_amount := Some paid; balance := bal;
     status := s; due_date := 739000%Z |}.

(** A payment creation request of the scenarios: the amount, in cash,
    for the fee record [i]. *)
Definition payment_request (a : Q) (i : Z) : PaymentCreate :=
  {| pc_amount := a; pc_payment_date := 1700000000%Z; pc_payment_method := CASH;
     pc_fee_record_id := i |}.

(** The row with id [k] that such a request creates. *)
Definition payment_row (k : Z) (a : Q) (i : Z) : Payment :=
  {| p_id := k; amount := a; payment_date := 1700000000%Z; payment_method := CASH;
     fee_record_id := i |}.

(** One fee record of 5500 with nothing paid; it receives id 1. *)
Definition db_5500 : Db :=
  after (create_fee_record (fee_record_request 5500 0 5500 PENDING)) empty_db.

(** One fee record of 1000 paid twice over: payments 1 and 2 of 1000 each. *)
Definition db_overpaid : Db :=
  after (create_payment (payment_request 1000 1))
    (after (create_payment (payment_request 1000 1))
       (after (create_fee_record (fee_record_request 1000 0 1000 PENDING)) empty_db)).

(** A request that changes no field of a fee record. *)
Definition no_fee_record_change : FeeRecordUpdate :=
  {| fru_academic_year := Unset; fru_term := Unset; fru_total_amount := Unset;
     fru_paid_amount := Unset; fru_balance := Unset; fru_status := Unset;
     fru_due_date := Unset |}.

(** A request that sets only [paid_amount]. *)
Definition only_paid_amount (f : Field Q) : FeeRecordUpdate :=
  {| fru_academic_year := Unset; fru_term := Unset; fru_total_amount := Unset;
     fru_paid_amount := f; fru_balance := Unset; fru_status := Unset;
     fru_due_date := Unset |}.



(** A request that sets [paid_amount] and [balance]. *)
Definition paid_amount_and_balance (paid bal : Q) : FeeRecordUpdate :=
  {| fru_academic_year := Unset; fru_term := Unset; fru_total_amount := Unset;
     fru_paid_amount := Value paid; fru_balance := Value bal; fru_status := Unset;
     fru_due_date := Unset |}.

(** A record with nothing paid whose stored balance is not its total. *)
Definition record_balance_off : FeeRecord := fee_record_1 100 0 50 PENDING.

(** The same in a database, reached through the handlers: a fee record of
    100 created with balance 50, one payment of 10, then [paid_amount] and
    [balance] set back to 0 and 50 by [update_fee_record]. *)
Definition db_balance_off : Db :=
  after (update_fee_record 1 (paid_amount_and_balance 0 50))
    (after (create_payment (payment_request 10 1))
       (after (create_fee_record (fee_record_request 100 0 50 PENDING)) empty_db)).

(** A fee record of 100 created with balance 50, without payments. *)
Definition db_fresh_balance_off : Db :=
  after (create_fee_record (fee_record_request 100 0 50 PENDING)) empty_db.

(** [db_overpaid] after an update that sends [paid_amount] as [null]. *)
Definition db_null_paid_amount : Db :=
  after (update_fee_record 1 (only_paid_amount Null)) db_overpaid.

(** A record marked overdue by an explicit update. *)
Definition record_overdue : FeeRecord := fee_record_1 5500 0 5500 OVERDUE.

End Payments.

(** ** Timetables: [models/timetable.py], [api/endpoints/timetables.py] *)

Module Timetables.

Inductive DayOfWeek : Type :=
| MONDAY | TUESDAY | WEDNESDAY | THURSDAY | FRIDAY | SATURDAY | SUNDAY.

Definition DayOfWeek_eqb (a b : DayOfWeek) : bool :=
  match a, b with
  | MONDAY, MONDAY | TUESDAY, TUESDAY | WEDNESDAY, WEDNESDAY
  | THURSDAY, THURSDAY | FRIDAY, FRIDAY | SATURDAY, SATURDAY
  | SUNDAY, SUNDAY => true
  | _, _ => false
  end.

(** [datetime.time], without time zone. *)
Record time : Type := mk_time {
  hour : nat;
  minute : nat;
  second : nat;
  microsecond : nat
}.

(** Times compare as the tuples (hour, minute, second, microsecond). *)
Definition time_compare (a b : time) : comparison :=
  match Nat.compare (hour a) (hour b) with
  | Eq =>
      match Nat.compare (minute a) (minute b) with
      | Eq =>
          match Nat.compare (second a) (second b) with
          | Eq => Nat.compare (microsecond a) (microsecond b)
          | c => c
          end
      | c => c
      end
  | c => c
  end.

Definition time_ltb (a b : time) : bool :=
  match time_compare a b with Lt => true | _ => false end.

Definition time_gtb (a b : time) : bool := time_ltb b a.

Definition midnight : time := mk_time 0 0 0 0.

(** Row of [timetables]. *)
Record Timetable : Type := mkTimetable {
  tt_id : Z;
  tt_name : string
}.

(** Row of [timetable_slots].  [room_number] and [teacher_id] are the
    nullable columns. *)
Record TimetableSlot : Type := mkTimetableSlot {
  id : Z;
  day : DayOfWeek;
  start_time : time;
  end_time : time;
  room_number : option string;
  timetable_id : Z;
  subject_id : Z;
  teacher_id : option Z
}.

(** Request schema [TimetableSlotCreate]. *)
Record TimetableSlotCreate : Type := mkTimetableSlotCreate {
  sc_day : DayOfWeek;
  sc_start_time : time;
  sc_end_time : time;
  sc_room_number : option string;
  sc_timetable_id : Z;
  sc_subject_id : Z;
  sc_teacher_id : option Z
}.

(** Request schema [TimetableSlotUpdate]. *)
Record TimetableSlotUpdate : Type := mkTimetableSlotUpdate {
  su_day : Field DayOfWeek;
  su_start_time : Field time;
  su_end_time : Field time;
  su_room_number : Field string;
  su_subject_id : Field Z;
  su_teacher_id : Field Z
}.

Record Db : Type := mkDb {
  timetables : list Timetable;
  slots : list TimetableSlot
}.

(** Python truth value of an optional [DayOfWeek] or [datetime.time].
    [None] is false.  A member of a plain [enum.Enum] is true, and so is
    every [datetime.time], midnight included (since Python 3.5; the
    handlers are [async def] with f-strings, so they run on 3.6 or
    later). *)
Definition truthy {A : Type} (v : option A) : bool :=
  match v with Some _ => true | None => false end.

(** Python [v or d] for such a value. *)
Definition py_or {A : Type} (v : option A) (d : A) : A :=
  match v with Some a => a | None => d end.

(** *** The overlap queries *)

(** [create_timetable_slot], lines 215-222. *)
Definition create_conflicts (slot_in : TimetableSlotCreate) (db : Db)
  : list TimetableSlot :=
  filter (fun s =>
            (timetable_id s =? sc_timetable_id slot_in)%Z
            && DayOfWeek_eqb (day s) (sc_day slot_in)
            && time_ltb (start_time s) (sc_end_time slot_in)
            && time_gtb (end_time s) (sc_start_time slot_in))
         (slots db).

(** [update_timetable_slot], line 293. *)
Definition time_is_being_updated (slot_in : TimetableSlotUpdate) : bool :=
  truthy (attr (su_day slot_in))
  || truthy (attr (su_start_time slot_in))
  || truthy (attr (su_end_time slot_in)).

(** [update_timetable_slot], lines 294-296: the day and times the query
    is run with. *)
Definition update_candidate (slot : TimetableSlot) (slot_in : TimetableSlotUpdate)
  : DayOfWeek * time * time :=
  (py_or (attr (su_day slot_in)) (day slot),
   py_or (attr (su_start_time slot_in)) (start_time slot),
   py_or (attr (su_end_time slot_in)) (end_time slot)).

(** [update_timetable_slot], lines 298-306. *)
Definition update_conflicts (slot_id : Z) (slot : TimetableSlot)
           (candidate : DayOfWeek * time * time) (db : Db) : list TimetableSlot :=
  let '(day', start_time', end_time') := candidate in
  filter (fun s =>
            negb (id s =? slot_id)%Z
            && (timetable_id s =? timetable_id slot)%Z
            && DayOfWeek_eqb (day s) day'
            && time_ltb (start_time s) end_time'
            && time_gtb (end_time s) start_time')
         (slots db).

(** *** Slot handlers *)

Definition conflict_detail : string := "Time slot conflicts with existing slots".

(** [create_timetable_slot]. *)
Definition create_timetable_slot (slot_in : TimetableSlotCreate) (db : Db)
  : Response TimetableSlot * Db :=
  match first_by_id tt_id (sc_timetable_id slot_in) (timetables db) with
  | None => (HTTPException HTTP_404_NOT_FOUND "Timetable not found", db)
  | Some _ =>
      match create_conflicts slot_in db with
      | _ :: _ => (HTTPException HTTP_400_BAD_REQUEST conflict_detail, db)
      | [] =>
          let slot :=
            {| id := fresh_id id (slots db);
               day := sc_day slot_in;
               start_time := sc_start_time slot_in;
               end_time := sc_end_time slot_in;
               room_number := sc_room_number slot_in;
               timetable_id := sc_timetable_id slot_in;
               subject_id := sc_subject_id slot_in;
               teacher_id := sc_teacher_id slot_in |} in
          (Ok slot,
           {| timetables := timetables db;
              slots := insert_row slot (slots db) |})
      end
  end.

(** [update_timetable_slot], lines 315-319: every field of
    [slot_in.dict(exclude_unset=True)] is assigned, then the row is
    committed.  [None] when the commit fails on a NOT NULL column. *)
Definition set_slot_fields (slot : TimetableSlot) (slot_in : TimetableSlotUpdate)
  : option TimetableSlot :=
  match setattr_required (su_day slot_in) (day slot),
        setattr_required (su_start_time slot_in) (start_time slot),
        setattr_required (su_end_time slot_in) (end_time slot),
        setattr_required (su_subject_id slot_in) (subject_id slot) with
  | Some day', Some start_time', Some end_time', Some subject_id' =>
      Some {| id := id slot;
              day := day';
              start_time := start_time';
              end_time := end_time';
              room_number := setattr_nullable (su_room_number slot_in) (room_number slot);
              timetable_id := timetable_id slot;
              subject_id := subject_id';
              teacher_id := setattr_nullable (su_teacher_id slot_in) (teacher_id slot) |}
  | _, _, _, _ => None
  end.

(** The conflicts found by [update_timetable_slot]; the query is not run
    (no conflicts) when line 293 is false. *)
Definition update_check (slot_id : Z) (slot : TimetableSlot)
           (slot_in : TimetableSlotUpdate) (db : Db) : list TimetableSlot :=
  if time_is_being_updated slot_in
  then update_conflicts slot_id slot (update_candidate slot slot_in) db
  else [].

(** [update_timetable_slot]. *)
Definition update_timetable_slot (slot_id : Z) (slot_in : TimetableSlotUpdate)
           (db : Db) : Response TimetableSlot * Db :=
  match first_by_id id slot_id (slots db) with
  | None => (HTTPException HTTP_404_NOT_FOUND "Timetable slot not found", db)
  | Some slot =>
      match update_check slot_id slot slot_in db with
      | _ :: _ => (HTTPException HTTP_400_BAD_REQUEST conflict_detail, db)
      | [] =>
          match set_slot_fields slot slot_in with
          | None => (Unhandled IntegrityError, db)
          | Some slot' =>
              (Ok slot',
               {| timetables := timetables db;
                  slots := commit_row id slot' (slots db) |})
          end
      end
  end.

(** *** Vocabulary of the specification *)

Definition time_lt (a b : time) : Prop := time_ltb a b = true.
Definition time_gt (a b : time) : Prop := time_gtb a b = true.

(** The overlap test on ranges [s1,e1) and [s2,e2): [s1 < e2 AND e1 > s2]. *)
Definition ranges_conflict (s1 e1 s2 e2 : time) : Prop :=
  time_lt s1 e2 /\ time_gt e1 s2.

(** Two slots of one timetable and day whose ranges conflict. *)
Definition overlap (a b : TimetableSlot) : Prop :=
  timetable_id a = timetable_id b /\ day a = day b
  /\ ranges_conflict (start_time a) (end_time a) (start_time b) (end_time b).

(** The invariant of the data model on a slot table. *)
Definition no_overlap (rows : list TimetableSlot) : Prop :=
  forall a b, In a rows -> In b rows -> id a <> id b -> ~ overlap a b.


(** *** Scenarios *)

Definition after {A : Type} (handler : Db -> Response A * Db) (db : Db) : Db :=
  snd (handler db).

Definition slot_of (i : Z) (db : Db) : option TimetableSlot :=
  first_by_id id i (slots db).

(** [hh:mm]. *)
Definition at_ (h m : nat) : time := mk_time h m 0 0.

Definition new_slot (d : DayOfWeek) (s e : time) : TimetableSlotCreate :=
  {| sc_day := d; sc_start_time := s; sc_end_time := e;
     sc_room_number := None; sc_timetable_id := 1; sc_subject_id := 1;
     sc_teacher_id := None |}.

(** An update request that sets nothing. *)
Definition no_change : TimetableSlotUpdate :=
  {| su_day := Unset; su_start_time := Unset; su_end_time := Unset;
     su_room_number := Unset; su_subject_id := Unset; su_teacher_id := Unset |}.

Definition only_day (f : Field DayOfWeek) : TimetableSlotUpdate :=
  {| su_day := f; su_start_time := Unset; su_end_time := Unset;
     su_room_number := Unset; su_subject_id := Unset; su_teacher_id := Unset |}.

Definition only_start_time (f : Field time) : TimetableSlotUpdate :=
  {| su_day := Unset; su_start_time := f; su_end_time := Unset;
     su_room_number := Unset; su_subject_id := Unset; su_teacher_id := Unset |}.


(** One timetable, id 1, without slots. *)
Definition db_empty_timetable : Db :=
  {| timetables := [ {| tt_id := 1; tt_name := "Grade 1" |} ]; slots := [] |}.

(** The row of slot 1 on Monday 08:00-09:00. *)
Definition monday_8_to_9 : TimetableSlot :=
  {| id := 1; day := MONDAY; start_time := at_ 8 0; end_time := at_ 9 0;
     room_number := None; timetable_id := 1; subject_id := 1;
     teacher_id := None |}.

(** Slot 1 on Monday 08:00-09:00. *)
Definition db_one_slot : Db :=
  after (create_timetable_slot (new_slot MONDAY (at_ 8 0) (at_ 9 0)))
        db_empty_timetable.

(** Slot 1 on Monday 08:00-09:00 and slot 2 on Monday 09:00-10:00. *)
Definition db_two_slots : Db :=
  after (create_timetable_slot (new_slot MONDAY (at_ 9 0) (at_ 10 0))) db_one_slot.

(** Slot 1 on Monday 00:00-01:00 and slot 2 on Monday 08:00-09:00. *)
Definition db_midnight_slot : Db :=
  after (create_timetable_slot (new_slot MONDAY (at_ 8 0) (at_ 9 0)))
    (after (create_timetable_slot (new_slot MONDAY midnight (at_ 1 0)))
           db_empty_timetable).


(** *** Read and delete handlers, request sequences *)

(** [get_timetable_slot]. *)
Definition get_timetable_slot (slot_id : Z) (db : Db) : Response TimetableSlot * Db :=
  match first_by_id id slot_id (slots db) with
  | None => (HTTPException HTTP_404_NOT_FOUND "Timetable slot not found", db)
  | Some slot => (Ok slot, db)
  end.

(** [delete_timetable_slot]. *)
Definition delete_timetable_slot (slot_id : Z) (db : Db)
  : Response TimetableSlot * Db :=
  match first_by_id id slot_id (slots db) with
  | None => (HTTPException HTTP_404_NOT_FOUND "Timetable slot not found", db)
  | Some slot =>
      (Ok slot,
       {| timetables := timetables db;
          slots := delete_row id slot_id (slots db) |})
  end.

(** A request to one of the three slot operations that write. *)
Inductive SlotRequest : Type :=
| PostSlot (slot_in : TimetableSlotCreate)
| PutSlot (slot_id : Z) (slot_in : TimetableSlotUpdate)
| DeleteSlot (slot_id : Z).

(** The database after the request has been served. *)
Definition serve_slot (request : SlotRequest) (db : Db) : Db :=
  match request with
  | PostSlot slot_in => snd (create_timetable_slot slot_in db)
  | PutSlot slot_id slot_in => snd (update_timetable_slot slot_id slot_in db)
  | DeleteSlot slot_id => snd (delete_timetable_slot slot_id db)
  end.

(** The database after all requests of a sequence, served in order. *)
Definition serve_slots (requests : list SlotRequest) (db : Db) : Db :=
  fold_left (fun db' q => serve_slot q db') requests db.

(** Primary keys of the slot table are pairwise different. *)
Definition slot_ids_unique (db : Db) : Prop := NoDup (map id (slots db)).

End Timetables.

(** * Properties *)

Unset Implicit Arguments.

(** ** Tables *)

Section TableFacts.
Variable Row : Type.
Variable row_id : Row -> Z.

Lemma first_by_id_some (i : Z) (rows : list Row) (r : Row) :
  first_by_id row_id i rows = Some r -> In r rows /\ row_id r = i.
Proof.
  unfold first_by_id. intros H. apply find_some in H.
  destruct H as [Hin Hid]. split; [assumption | now apply Z.eqb_eq].
Qed.

Lemma first_by_id_none (i : Z) (rows : list Row) (r : Row) :
  first_by_id row_id i rows = None -> In r rows -> row_id r <> i.
Proof.
  unfold first_by_id. intros H Hin Hid.
  apply (find_none _ _ H) in Hin. apply Z.eqb_neq in Hin. contradiction.
Qed.

(** A committed row is what the next lookup by its id returns. *)
Lemma first_by_id_commit_row (i : Z) (rows : list Row) (r r' : Row) :
  first_by_id row_id i rows = Some r -> row_id r' = i ->
  first_by_id row_id i (commit_row row_id r' rows) = Some r'.
Proof.
  intros Hfind Hid. subst i. induction rows as [|x rest IH]; simpl in *.
  - discriminate.
  - destruct (row_id x =? row_id r')%Z eqn:E; simpl.
    + now rewrite Z.eqb_refl.
    + rewrite E. now apply IH.
Qed.

(** Rows with another id are neither added nor removed nor changed. *)
Lemma In_commit_row_other (r' s : Row) (rows : list Row) :
  row_id s <> row_id r' ->
  (In s (commit_row row_id r' rows) <-> In s rows).
Proof.
  intros Hne. induction rows as [|x rest IH]; simpl.
  - tauto.
  - destruct (row_id x =? row_id r')%Z eqn:E; simpl.
    + apply Z.eqb_eq in E. split; intros [H | H]; auto.
      * subst s. contradiction.
      * subst s. rewrite E in Hne. contradiction.
    + rewrite IH. tauto.
Qed.

(** Committing a row does not change what a lookup by another id returns. *)
Lemma first_by_id_commit_row_other (i : Z) (rows : list Row) (r' : Row) :
  row_id r' <> i ->
  first_by_id row_id i (commit_row row_id r' rows) = first_by_id row_id i rows.
Proof.
  intros Hne. induction rows as [|x rest IH]; simpl; [reflexivity|].
  destruct (row_id x =? row_id r')%Z eqn:E; simpl.
  - apply Z.eqb_eq in E.
    replace (row_id x =? i)%Z with false by (symmetry; apply Z.eqb_neq; congruence).
    replace (row_id r' =? i)%Z with false by (symmetry; now apply Z.eqb_neq).
    reflexivity.
  - destruct (row_id x =? i)%Z; [reflexivity | exact IH].
Qed.

Lemma In_commit_row (r' s : Row) (rows : list Row) :
  In s (commit_row row_id r' rows) -> s = r' \/ In s rows.
Proof.
  induction rows as [|x rest IH]; simpl.
  - tauto.
  - destruct (row_id x =? row_id r')%Z; simpl; intros [H | H]; auto.
    destruct (IH H); auto.
Qed.

Lemma fresh_id_above (rows : list Row) (r : Row) :
  In r rows -> (row_id r < fresh_id row_id rows)%Z.
Proof.
  unfold fresh_id. induction rows as [|x rest IH]; cbn [fold_right In].
  - tauto.
  - intros [H | H].
    + subst x. lia.
    + specialize (IH H). lia.
Qed.

(** An inserted row is found under its fresh id. *)
Lemma first_by_id_insert_fresh (i : Z) (rows : list Row) (r : Row) :
  row_id r = i -> i = fresh_id row_id rows ->
  first_by_id row_id i (insert_row r rows) = Some r.
Proof.
  intros Hi Hid. subst i. unfold first_by_id, insert_row.
  assert (Hrows : forall x, In x rows -> (row_id x =? row_id r)%Z = false).
  { intros x Hx. apply Z.eqb_neq. apply fresh_id_above in Hx. lia. }
  clear Hid. induction rows as [|x rest IH]; simpl.
  - now rewrite Z.eqb_refl.
  - rewrite (Hrows x) by (now left). apply IH.
    intros y Hy. apply Hrows. now right.
Qed.

(** A query that selects neither the replaced row nor its replacement
    returns the same rows before and after the commit. *)
Lemma filter_commit_row_unselected (f : Row -> bool) (i : Z) (rows : list Row)
      (r r' : Row) :
  first_by_id row_id i rows = Some r -> row_id r' = i ->
  f r = false -> f r' = false ->
  filter f (commit_row row_id r' rows) = filter f rows.
Proof.
  unfold first_by_id. intros Hr Hid Hf Hf'. subst i.
  induction rows as [|x rest IH]; simpl in *; [reflexivity|].
  destruct (row_id x =? row_id r')%Z.
  - injection Hr as ->. simpl. now rewrite Hf, Hf'.
  - simpl. destruct (f x); [f_equal|]; now apply IH.
Qed.

(** A query that does not select the deleted row returns the same rows
    before and after the deletion. *)
Lemma filter_delete_row_unselected (f : Row -> bool) (i : Z) (rows : list Row)
      (r : Row) :
  first_by_id row_id i rows = Some r -> f r = false ->
  filter f (delete_row row_id i rows) = filter f rows.
Proof.
  unfold first_by_id. intros Hr Hf.
  induction rows as [|x rest IH]; simpl in *; [reflexivity|].
  destruct (row_id x =? i)%Z.
  - injection Hr as ->. now rewrite Hf.
  - simpl. destruct (f x); [f_equal|]; now apply IH.
Qed.

(** A row that is found and selected is among the selected rows. *)
Lemma filter_selects_found (f : Row -> bool) (i : Z) (rows : list Row) (r : Row) :
  first_by_id row_id i rows = Some r -> f r = true -> filter f rows <> [].
Proof.
  intros Hr Hf Hnil. apply first_by_id_some in Hr. destruct Hr as [Hin _].
  assert (Hin' : In r (filter f rows)) by (apply filter_In; auto).
  rewrite Hnil in Hin'. exact Hin'.
Qed.

End TableFacts.

(** ** Fees and payments *)

Module PaymentsFacts.
Import Payments.

Lemma Qgt_bool_iff (x y : Q) : Qgt_bool x y = true <-> y < x.
Proof. unfold Qgt_bool, Qlt. apply Z.ltb_lt. Qed.

Lemma Qgt_bool_false_iff (x y : Q) : Qgt_bool x y = false <-> x <= y.
Proof. unfold Qgt_bool, Qle. apply Z.ltb_ge. Qed.

Lemma Qle_bool_false_iff (x y : Q) : Qle_bool x y = false <-> y < x.
Proof.
  split; intros H.
  - apply Qnot_le_lt. intros Hle. apply Qle_bool_iff in Hle. congruence.
  - destruct (Qle_bool x y) eqn:E; [|reflexivity].
    apply Qle_bool_iff in E. lra.
Qed.

(** Case analysis on the two tests of the status derivation. *)
Ltac status_cases :=
  repeat match goal with
    | |- context [Qle_bool ?a ?b] =>
        let E := fresh "E" in
        destruct (Qle_bool a b) eqn:E;
        [apply Qle_bool_iff in E | apply Qle_bool_false_iff in E]
    | |- context [Qgt_bool ?a ?b] =>
        let E := fresh "E" in
        destruct (Qgt_bool a b) eqn:E;
        [apply Qgt_bool_iff in E | apply Qgt_bool_false_iff in E]
    end.

Lemma apply_new_payment_recomputed (r r' : FeeRecord) (a : Q) :
  apply_new_payment r a = Some r' -> recomputed r r'.
Proof.
  unfold apply_new_payment, recomputed, balance_consistent.
  destruct (paid_amount r); [|discriminate].
  intros H. injection H as <-. simpl. repeat split; reflexivity.
Qed.

Lemma apply_amended_payment_recomputed (r r' : FeeRecord) (o n : Q) :
  apply_amended_payment r o n = Some r' -> recomputed r r'.
Proof.
  unfold apply_amended_payment, recomputed, balance_consistent.
  destruct (paid_amount r); [|discriminate].
  intros H. injection H as <-. simpl. repeat split; reflexivity.
Qed.

Lemma apply_removed_payment_recomputed (r r' : FeeRecord) (a : Q) :
  apply_removed_payment r a = Some r' -> recomputed r r'.
Proof.
  unfold apply_removed_payment, recomputed, balance_consistent.
  destruct (paid_amount r); [|discriminate].
  intros H. injection H as <-. simpl. repeat split; reflexivity.
Qed.

(** The payment committed by [update_payment] keeps its id and its fee
    record and carries the amount assigned by the loop. *)
Lemma set_payment_fields_some (p p' : Payment) (payment_in : PaymentUpdate) :
  set_payment_fields p payment_in = Some p' ->
  p_id p' = p_id p
  /\ fee_record_id p' = fee_record_id p
  /\ setattr_required (pu_amount payment_in) (amount p) = Some (amount p').
Proof.
  unfold set_payment_fields.
  destruct (setattr_required (pu_amount payment_in) (amount p));
    [|discriminate].
  destruct (setattr_required (pu_payment_date payment_in) (payment_date p));
    [|discriminate].
  destruct (setattr_required (pu_payment_method payment_in) (payment_method p));
    [|discriminate].
  intros H. injection H as <-. simpl. auto.
Qed.

(** What a payment request does to the fee record table: nothing, or it
    commits one stored record, recomputed. *)
Lemma serve_fee_records (q : PaymentRequest) (db : Db) :
  fee_records (serve q db) = fee_records db
  \/ exists r2 r2',
       first_by_id fr_id (fr_id r2') (fee_records db) = Some r2
       /\ recomputed r2 r2'
       /\ fee_records (serve q db) = commit_row fr_id r2' (fee_records db).
Proof.
  assert (Hcommit : forall j r2 r2',
             first_by_id fr_id j (fee_records db) = Some r2 ->
             recomputed r2 r2' ->
             first_by_id fr_id (fr_id r2') (fee_records db) = Some r2).
  { intros j r2 r2' H2 (Hid & _). rewrite Hid.
    destruct (first_by_id_some _ _ _ _ _ H2) as [_ ->]. exact H2. }
  destruct q as [payment_in | payment_id payment_in | payment_id]; simpl.
  - unfold create_payment.
    destruct (first_by_id fr_id (pc_fee_record_id payment_in) (fee_records db))
      as [r2|] eqn:E2; simpl; [|now left].
    destruct (apply_new_payment r2 (pc_amount payment_in)) as [r2'|] eqn:Ea;
      simpl; [|now left].
    apply apply_new_payment_recomputed in Ea. right. exists r2, r2'. eauto.
  - unfold update_payment.
    destruct (first_by_id p_id payment_id (payments db)) as [p|]; simpl; [|now left].
    destruct (amount_was_updated payment_in (amount p)).
    + destruct (first_by_id fr_id (fee_record_id p) (fee_records db))
        as [r2|] eqn:E2.
      * destruct (attr (pu_amount payment_in)) as [a|]; simpl; [|now left].
        destruct (apply_amended_payment r2 (amount p) a) as [r2'|] eqn:Ea;
          simpl; [|now left].
        destruct (set_payment_fields p payment_in); simpl; [|now left].
        apply apply_amended_payment_recomputed in Ea. right. exists r2, r2'. eauto.
      * destruct (set_payment_fields p payment_in); simpl; now left.
    + destruct (set_payment_fields p payment_in); simpl; now left.
  - unfold delete_payment.
    destruct (first_by_id p_id payment_id (payments db)) as [p|]; simpl; [|now left].
    destruct (first_by_id fr_id (fee_record_id p) (fee_records db))
      as [r2|] eqn:E2; simpl; [|now left].
    destruct (apply_removed_payment r2 (amount p)) as [r2'|] eqn:Ea;
      simpl; [|now left].
    apply apply_removed_payment_recomputed in Ea. right. exists r2, r2'. eauto.
Qed.

(** No payment request removes a fee record; each leaves it as it was or
    recomputed. *)
Lemma serve_fee_record (q : PaymentRequest) (db : Db) (i : Z) (r : FeeRecord) :
  fee_record_of i db = Some r ->
  exists r', fee_record_of i (serve q db) = Some r'
             /\ (r' = r \/ recomputed r r').
Proof.
  unfold fee_record_of. intros Hr.
  destruct (serve_fee_records q db) as [-> | (r2 & r2' & H2 & Hrec & ->)].
  - exists r. auto.
  - destruct (Z.eq_dec (fr_id r2') i) as [Heq | Hne].
    + exists r2'. rewrite Heq in H2. assert (r2 = r) by congruence. subst r2.
      split; [|now right].
      now apply first_by_id_commit_row with (r := r).
    + exists r. split; [|now left].
      now rewrite first_by_id_commit_row_other.
Qed.

Lemma consistent_has_paid_amount (r : FeeRecord) :
  balance_consistent r -> exists paid, paid_amount r = Some paid.
Proof.
  unfold balance_consistent. destruct (paid_amount r) as [p|]; [eauto | tauto].
Qed.

(** A request that is not a payment event on the fee record [i] leaves
    the payments stored for [i] as they were. *)
Lemma serve_keeps_payments_of (q : PaymentRequest) (db : Db) (i : Z) :
  is_event_on i q db = false -> payments_of i (serve q db) = payments_of i db.
Proof.
  unfold payments_of, get_payments_by_fee_record. simpl.
  destruct q as [payment_in | payment_id payment_in | payment_id]; simpl.
  - intros Hev. unfold create_payment.
    destruct (first_by_id fr_id (pc_fee_record_id payment_in) (fee_records db));
      [|reflexivity].
    destruct (apply_new_payment f (pc_amount payment_in)); [|reflexivity].
    simpl. unfold insert_row. rewrite filter_app. simpl. rewrite Hev.
    apply app_nil_r.
  - unfold update_payment.
    destruct (first_by_id p_id payment_id (payments db)) as [p|] eqn:Ep;
      [|reflexivity].
    intros Hev.
    destruct (first_by_id_some _ _ _ _ _ Ep) as [_ Hpid].
    assert (Hcommit : forall p',
               set_payment_fields p payment_in = Some p' ->
               filter (fun p0 => (fee_record_id p0 =? i)%Z)
                      (commit_row p_id p' (payments db))
               = filter (fun p0 => (fee_record_id p0 =? i)%Z) (payments db)).
    { intros p' Hset.
      destruct (set_payment_fields_some _ _ _ Hset) as (Hid & Hfee & _).
      apply filter_commit_row_unselected with (i := payment_id) (r := p); auto.
      - congruence.
      - now rewrite Hfee. }
    destruct (amount_was_updated payment_in (amount p));
      [destruct (first_by_id fr_id (fee_record_id p) (fee_records db)) as [r2|];
       [destruct (attr (pu_amount payment_in)) as [a|];
        [destruct (apply_amended_payment r2 (amount p) a)|]|]|];
      try reflexivity;
      destruct (set_payment_fields p payment_in) as [p'|] eqn:Hset;
      try reflexivity; simpl; now apply Hcommit.
  - unfold delete_payment.
    destruct (first_by_id p_id payment_id (payments db)) as [p|] eqn:Ep;
      [|reflexivity].
    intros Hev.
    assert (Hdelete :
             filter (fun p0 => (fee_record_id p0 =? i)%Z)
                    (delete_row p_id payment_id (payments db))
             = filter (fun p0 => (fee_record_id p0 =? i)%Z) (payments db)).
    { apply filter_delete_row_unselected with (r := p); auto. }
    destruct (first_by_id fr_id (fee_record_id p) (fee_records db)) as [r2|];
      [destruct (apply_removed_payment r2 (amount p))|];
      try reflexivity; simpl; apply Hdelete.
Qed.

(** After a payment event on a ready fee record the invariant holds. *)
Lemma serve_event_consistent (q : PaymentRequest) (db : Db) (i : Z) :
  ready_at i db -> is_event_on i q db = true -> consistent_at i (serve q db).
Proof.
  intros (r & paid & Hr & Hp & Hor) Hev.
  assert (Hlisted : forall payment_id p,
             first_by_id p_id payment_id (payments db) = Some p ->
             (fee_record_id p =? i)%Z = true ->
             balance_consistent r).
  { intros payment_id p Ep Hfee. destruct Hor as [Hc | Hnil]; [exact Hc|].
    exfalso. unfold payments_of, get_payments_by_fee_record in Hnil. simpl in Hnil.
    apply (filter_selects_found Payment p_id
             (fun p0 => (fee_record_id p0 =? i)%Z)
             payment_id (payments db) p Ep Hfee).
    exact Hnil. }
  assert (Hkept : balance_consistent r -> consistent_at i (serve q db)).
  { intros Hc. destruct (serve_fee_record q db i r Hr) as (r' & Hr' & Hsame).
    exists r'. split; [exact Hr'|].
    destruct Hsame as [-> | (_ & _ & Hc')]; assumption. }
  destruct q as [payment_in | payment_id payment_in | payment_id]; simpl in Hev.
  - apply Z.eqb_eq in Hev. unfold consistent_at, fee_record_of in *. simpl.
    unfold create_payment. rewrite Hev, Hr.
    destruct (apply_new_payment r (pc_amount payment_in)) as [r'|] eqn:Ea.
    + pose proof (apply_new_payment_recomputed _ _ _ Ea) as (Hid & _ & Hc).
      exists r'. split; [|exact Hc]. simpl.
      apply first_by_id_commit_row with (r := r); [assumption|].
      rewrite Hid. now apply first_by_id_some in Hr.
    + unfold apply_new_payment in Ea. rewrite Hp in Ea. discriminate.
  - destruct (first_by_id p_id payment_id (payments db)) as [p|] eqn:Ep;
      [|discriminate].
    apply Hkept. now apply (Hlisted payment_id p).
  - destruct (first_by_id p_id payment_id (payments db)) as [p|] eqn:Ep;
      [|discriminate].
    apply Hkept. now apply (Hlisted payment_id p).
Qed.

(** A ready fee record stays ready. *)
Lemma serve_keeps_ready (q : PaymentRequest) (db : Db) (i : Z) :
  ready_at i db -> ready_at i (serve q db).
Proof.
  intros Hready. pose proof Hready as (r & paid & Hr & Hp & Hor).
  destruct (is_event_on i q db) eqn:Hev.
  - destruct (serve_event_consistent q db i Hready Hev) as (r' & Hr' & Hc).
    destruct (consistent_has_paid_amount r' Hc) as (paid' & Hp').
    exists r', paid'. auto.
  - destruct (serve_fee_record q db i r Hr) as (r' & Hr' & Hsame).
    destruct Hsame as [-> | (_ & _ & Hc)].
    + exists r, paid. split; [exact Hr'|]. split; [exact Hp|].
      destruct Hor as [Hc | Hnil]; [now left | right].
      now rewrite serve_keeps_payments_of.
    + destruct (consistent_has_paid_amount r' Hc) as (paid' & Hp').
      exists r', paid'. auto.
Qed.

End PaymentsFacts.

Module PaymentsSpec.
Import Payments PaymentsFacts.

(** C1.  Deleting a payment sets [paid_amount -= amount] and
    [balance = total_amount - paid_amount], but the status it assigns is
    PARTIALLY_PAID whenever the new [paid_amount] is positive, also when
    the new balance is [<= 0], where the status table gives PAID.  On a
    fee record of 1000 paid by two payments of 1000, deleting the second
    payment leaves [paid_amount = 1000], [balance = 0] and status
    PARTIALLY_PAID; amending the second payment to 0 instead reaches the
    same amounts with status PAID. *)
Theorem delete_payment_status_ignores_balance :
  fee_record_of 1 db_overpaid = Some (fee_record_1 1000 2000 (-1000) PAID)
  /\ fee_record_of 1 (after (delete_payment 2) db_overpaid)
     = Some (fee_record_1 1000 1000 0 PARTIALLY_PAID)
  /\ derived_status 0 1000 = PAID
  /\ fee_record_of 1 (after (update_payment 2 (only_amount (Value 0))) db_overpaid)
     = Some (fee_record_1 1000 1000 0 PAID).
Proof. repeat split; vm_compute; reflexivity. Qed.

(** C2, as amended.  For a stored FeeRecord whose [paid_amount] is a
    number (0 in particular) and for which no payment is stored yet, or on
    which [balance = total_amount - paid_amount] holds at the start, and
    for every finite sequence of requests to the payment create, update
    and delete operations, the equality holds on the record after each
    request that is a payment event on it: one that creates a payment for
    it, or updates or deletes one of its payments. *)
Theorem payment_events_keep_balance_consistent
        (i : Z) (db : Db) (r : FeeRecord) (paid : Q)
        (requests : list PaymentRequest) :
  fee_record_of i db = Some r ->
  paid_amount r = Some paid ->
  balance_consistent r \/ payments_of i db = [] ->
  consistent_after_each_event i db requests.
Proof.
  intros Hr Hp Hor.
  assert (Hready : ready_at i db) by (exists r, paid; auto).
  clear Hr Hp Hor. revert db Hready.
  induction requests as [|q rest IH]; intros db Hready; simpl.
  - exact I.
  - split.
    + now apply serve_event_consistent.
    + apply IH. now apply serve_keeps_ready.
Qed.

Lemma payment_events_keep_balance_consistent_witness :
  fee_record_of 1 db_fresh_balance_off = Some (fee_record_1 100 0 50 PENDING)
  /\ payments_of 1 db_fresh_balance_off = []
  /\ consistent_after_each_event 1 db_fresh_balance_off
       [PostPayment (payment_request 10 1);
        PutPayment 1 (only_amount (Value 10));
        PutPayment 1 (only_amount (Value 20));
        PutPayment 1 (only_amount Null);
        DeletePayment 1;
        PostPayment (payment_request 5 1)].
Proof.
  assert (Hr : fee_record_of 1 db_fresh_balance_off
               = Some (fee_record_1 100 0 50 PENDING)) by reflexivity.
  assert (Hnone : payments_of 1 db_fresh_balance_off = []) by reflexivity.
  split; [exact Hr|]. split; [exact Hnone|].
  exact (payment_events_keep_balance_consistent
           1 db_fresh_balance_off _ 0 _ Hr eq_refl (or_intror Hnone)).
Defined.

(** C2 as stated fails: a record with [paid_amount = 0] whose stored
    balance is not its total, and a payment of 10 stored for it; the
    amendment that repeats the payment's amount is skipped by the guard of
    [update_payment] and the record stays as it was. *)
Lemma noop_amendment_keeps_balance_off :
  paid_amount record_balance_off = Some 0
  /\ reconcileBalance record_balance_off (AmendedPayment 10 10)
     = Some record_balance_off
  /\ ~ balance_consistent record_balance_off
  /\ first_by_id p_id 1 (payments db_balance_off) = Some (payment_row 1 10 1)
  /\ is_event_on 1 (PutPayment 1 (only_amount (Value 10))) db_balance_off = true
  /\ (exists r,
         fee_record_of 1 db_balance_off = Some r
         /\ paid_amount r = Some 0
         /\ fee_record_of 1
              (serve (PutPayment 1 (only_amount (Value 10))) db_balance_off)
            = Some r
         /\ total_amount r == 100 /\ balance r == 50
         /\ ~ balance_consistent r)
  /\ ~ consistent_after_each_event 1 db_balance_off
         [PutPayment 1 (only_amount (Value 10))].
Proof.
  split; [reflexivity|]. split; [reflexivity|]. split.
  { intros H. vm_compute in H. discriminate. }
  split; [reflexivity|]. split; [reflexivity|]. split.
  { eexists. split; [reflexivity|]. split; [reflexivity|].
    split; [reflexivity|]. split; [reflexivity|]. split; [reflexivity|].
    intros H. vm_compute in H. discriminate. }
  intros [H _]. destruct (H eq_refl) as (r & Hr & Hc).
  vm_compute in Hr. injection Hr as <-. vm_compute in Hc. discriminate.
Qed.

(** C5.  On a FeeRecord with [total_amount >= 0] and [paid_amount >= 0],
    creating a payment of a positive amount adds the amount to
    [paid_amount], sets [balance = total_amount - paid_amount] and sets
    the status by the ordered table (PAID if [balance <= 0], else
    PARTIALLY_PAID if [paid_amount > 0], else PENDING).  From a total of
    5500 with nothing paid, a payment of 5500 gives PAID with balance 0
    and a payment of 3000 gives PARTIALLY_PAID with balance 2500. *)
Theorem create_payment_applies_new_payment
        (payment_in : PaymentCreate) (db : Db) (r : FeeRecord) (paid : Q) :
  fee_record_of (pc_fee_record_id payment_in) db = Some r ->
  paid_amount r = Some paid ->
  0 <= total_amount r -> 0 <= paid -> 0 < pc_amount payment_in ->
  (exists payment db' r',
      create_payment payment_in db = (Ok payment, db')
      /\ fee_record_of (pc_fee_record_id payment_in) db' = Some r'
      /\ total_amount r' = total_amount r
      /\ paid_amount r' = Some (paid + pc_amount payment_in)
      /\ balance r' = total_amount r' - (paid + pc_amount payment_in)
      /\ status r' = derived_status (balance r') (paid + pc_amount payment_in))
  /\ fee_record_of 1 (after (create_payment (payment_request 5500 1)) db_5500)
     = Some (fee_record_1 5500 5500 0 PAID)
  /\ fee_record_of 1 (after (create_payment (payment_request 3000 1)) db_5500)
     = Some (fee_record_1 5500 3000 2500 PARTIALLY_PAID).
Proof.
  intros Hr Hp Htot Hpaid Hamt. split; [|split; reflexivity].
  unfold fee_record_of in *.
  destruct (first_by_id_some _ _ _ _ _ Hr) as [_ Hid].
  unfold create_payment. rewrite Hr. unfold apply_new_payment. rewrite Hp.
  eexists. eexists. eexists. split; [reflexivity|]. simpl. split.
  - apply first_by_id_commit_row with (r := r); [assumption | exact Hid].
  - simpl. repeat split. unfold derived_status.
    status_cases; try reflexivity. lra.
Qed.

Lemma create_payment_applies_new_payment_witness :
  exists payment db' r',
    create_payment (payment_request 3000 1) db_5500 = (Ok payment, db')
    /\ fee_record_of 1 db' = Some r'
    /\ total_amount r' = 5500
    /\ paid_amount r' = Some (0 + 3000)
    /\ balance r' = total_amount r' - (0 + 3000)
    /\ status r' = derived_status (balance r') (0 + 3000).
Proof.
  assert (Hr : fee_record_of 1 db_5500 = Some (fee_record_1 5500 0 5500 PENDING))
    by reflexivity.
  destruct (create_payment_applies_new_payment
              (payment_request 3000 1) db_5500 _ 0 Hr eq_refl)
    as [H _].
  - simpl. lra.
  - lra.
  - simpl. lra.
  - exact H.
Defined.








Set Warnings "-inexact-float".


Set Warnings "inexact-float".

End PaymentsSpec.

(** ** Timetables *)

Module TimetablesFacts.
Import Timetables.

Lemma DayOfWeek_eqb_eq (a b : DayOfWeek) : DayOfWeek_eqb a b = true <-> a = b.
Proof. destruct a, b; simpl; split; intros H; try reflexivity; discriminate. Qed.



Lemma overlap_sym (a b : TimetableSlot) : overlap a b -> overlap b a.
Proof.
  unfold overlap, ranges_conflict, time_gt, time_gtb, time_lt.
  intros (Ht & Hd & H1 & H2). repeat split; auto.
Qed.

(** The rows selected by the query of [create_timetable_slot]. *)
Lemma In_create_conflicts (slot_in : TimetableSlotCreate) (db : Db) (s : TimetableSlot) :
  In s (create_conflicts slot_in db) <->
  In s (slots db)
  /\ timetable_id s = sc_timetable_id slot_in
  /\ day s = sc_day slot_in
  /\ ranges_conflict (start_time s) (end_time s)
                     (sc_start_time slot_in) (sc_end_time slot_in).
Proof.
  unfold create_conflicts, ranges_conflict, time_lt, time_gt.
  rewrite filter_In, !andb_true_iff, Z.eqb_eq, DayOfWeek_eqb_eq. tauto.
Qed.

(** The rows selected by the query of [update_timetable_slot]. *)
Lemma In_update_conflicts (slot_id : Z) (slot : TimetableSlot)
      (d : DayOfWeek) (st en : time) (db : Db) (s : TimetableSlot) :
  In s (update_conflicts slot_id slot (d, st, en) db) <->
  In s (slots db)
  /\ id s <> slot_id
  /\ timetable_id s = timetable_id slot
  /\ day s = d
  /\ ranges_conflict (start_time s) (end_time s) st en.
Proof.
  unfold update_conflicts, ranges_conflict, time_lt, time_gt.
  rewrite filter_In, !andb_true_iff, negb_true_iff, Z.eqb_neq, Z.eqb_eq,
    DayOfWeek_eqb_eq. tauto.
Qed.

Lemma filter_nil_iff {A : Type} (f : A -> bool) (l : list A) :
  filter f l = [] <-> forall x, In x l -> f x = false.
Proof.
  induction l as [|a l IH]; simpl.
  - split; [intros _ x [] | reflexivity].
  - destruct (f a) eqn:E; split.
    + discriminate.
    + intros H. specialize (H a (or_introl eq_refl)). congruence.
    + intros H x [Hx | Hx]; [now subst | now apply IH].
    + intros H. apply IH. intros x Hx. apply H. now right.
Qed.

Lemma nil_no_member {A : Type} (l : list A) : l = [] <-> forall x, ~ In x l.
Proof.
  destruct l as [|a l]; split; intros H; try reflexivity.
  - intros x [].
  - discriminate.
  - exfalso. apply (H a). now left.
Qed.

(** The setattr loop writes the candidate the query was run with, when
    the commit succeeds. *)
Lemma set_slot_fields_candidate (slot slot' : TimetableSlot)
      (slot_in : TimetableSlotUpdate) :
  set_slot_fields slot slot_in = Some slot' ->
  (day slot', start_time slot', end_time slot') = update_candidate slot slot_in
  /\ id slot' = id slot /\ timetable_id slot' = timetable_id slot.
Proof.
  unfold set_slot_fields, update_candidate.
  destruct slot_in as [fd fs fe fr fsub ft]; simpl.
  destruct fd, fs, fe, fsub; simpl; intros H; try discriminate;
    injection H as <-; simpl; auto.
Qed.

(** What an accepted update has done. *)
Lemma update_timetable_slot_ok (slot_id : Z) (slot_in : TimetableSlotUpdate)
      (db db' : Db) (slot slot' : TimetableSlot) :
  first_by_id id slot_id (slots db) = Some slot ->
  update_timetable_slot slot_id slot_in db = (Ok slot', db') ->
  update_check slot_id slot slot_in db = []
  /\ set_slot_fields slot slot_in = Some slot'
  /\ db' = {| timetables := timetables db;
              slots := commit_row id slot' (slots db) |}.
Proof.
  intros Hs. unfold update_timetable_slot. rewrite Hs.
  destruct (update_check slot_id slot slot_in db) eqn:Ec; [|discriminate].
  destruct (set_slot_fields slot slot_in) eqn:Ef; [|discriminate].
  intros H. injection H as <- <-. auto.
Qed.

End TimetablesFacts.

Module TimetablesSpec.
Import Timetables TimetablesFacts.









(** C8, as amended.  A slot creation whose candidate conflicts with a
    stored slot, and a slot update that supplies a day or time and whose
    candidate conflicts with another stored slot, are rejected with the
    database left as it was: status 400 with the fixed detail
    ["Time slot conflicts with existing slots"] (404 when the timetable of
    a creation does not exist).  The response names none of the
    conflicting slots. *)
Theorem conflicting_slot_is_rejected_unchanged
        (slot_in : TimetableSlotCreate) (slot_id : Z) (upd : TimetableSlotUpdate)
        (db : Db) (slot : TimetableSlot) :
  (create_conflicts slot_in db <> [] ->
   snd (create_timetable_slot slot_in db) = db
   /\ (fst (create_timetable_slot slot_in db)
       = HTTPException HTTP_400_BAD_REQUEST conflict_detail
       \/ (first_by_id tt_id (sc_timetable_id slot_in) (timetables db) = None
           /\ fst (create_timetable_slot slot_in db)
              = HTTPException HTTP_404_NOT_FOUND "Timetable not found")))
  /\ (first_by_id id slot_id (slots db) = Some slot ->
      time_is_being_updated upd = true ->
      update_conflicts slot_id slot (update_candidate slot upd) db <> [] ->
      update_timetable_slot slot_id upd db
      = (HTTPException HTTP_400_BAD_REQUEST conflict_detail, db)).
Proof.
  split.
  - intros Hc. unfold create_timetable_slot.
    destruct (first_by_id tt_id (sc_timetable_id slot_in) (timetables db)).
    + destruct (create_conflicts slot_in db); [contradiction|]. simpl. auto.
    + simpl. auto.
  - intros Hs Hrun Hc. unfold update_timetable_slot, update_check.
    rewrite Hs, Hrun.
    destruct (update_conflicts slot_id slot (update_candidate slot upd) db);
      [contradiction | reflexivity].
Qed.

Lemma conflicting_slot_is_rejected_unchanged_witness :
  create_timetable_slot (new_slot MONDAY (at_ 8 30) (at_ 9 30)) db_two_slots
  = (HTTPException HTTP_400_BAD_REQUEST conflict_detail, db_two_slots)
  /\ update_timetable_slot 2 (only_start_time (Value (at_ 8 30))) db_two_slots
     = (HTTPException HTTP_400_BAD_REQUEST conflict_detail, db_two_slots).
Proof.
  destruct (conflicting_slot_is_rejected_unchanged
              (new_slot MONDAY (at_ 8 30) (at_ 9 30)) 2
              (only_start_time (Value (at_ 8 30))) db_two_slots
              {| id := 2; day := MONDAY; start_time := at_ 9 0;
                 end_time := at_ 10 0; room_number := None; timetable_id := 1;
                 subject_id := 1; teacher_id := None |}) as [Hc Hu].
  split.
  - assert (Hne : create_conflicts (new_slot MONDAY (at_ 8 30) (at_ 9 30))
                                   db_two_slots <> [])
      by (vm_compute; discriminate).
    destruct (Hc Hne) as [Hdb [H400 | [Hnone _]]].
    + rewrite (surjective_pairing (create_timetable_slot _ _)).
      now rewrite Hdb, H400.
    + vm_compute in Hnone. discriminate.
  - apply Hu.
    + reflexivity.
    + reflexivity.
    + vm_compute. discriminate.
Defined.

(** C8 as stated fails: the request for Monday 08:30-09:30 conflicts with
    one slot in one database and with two in the other, and the two
    rejections are the same response. *)
Lemma rejection_does_not_list_conflicts :
  List.length (create_conflicts (new_slot MONDAY (at_ 8 30) (at_ 9 30)) db_one_slot)
  = 1%nat
  /\ List.length (create_conflicts (new_slot MONDAY (at_ 8 30) (at_ 9 30)) db_two_slots)
     = 2%nat
  /\ fst (create_timetable_slot (new_slot MONDAY (at_ 8 30) (at_ 9 30)) db_one_slot)
     = HTTPException 400 "Time slot conflicts with existing slots"
  /\ fst (create_timetable_slot (new_slot MONDAY (at_ 8 30) (at_ 9 30)) db_two_slots)
     = HTTPException 400 "Time slot conflicts with existing slots".
Proof. repeat split. Qed.

(** The assignments of [update_timetable_slot] pass the commit exactly
    when no NOT NULL column is sent as [null]. *)
Lemma set_slot_fields_some (slot : TimetableSlot) (upd : TimetableSlotUpdate) :
  su_day upd <> Null -> su_start_time upd <> Null ->
  su_end_time upd <> Null -> su_subject_id upd <> Null ->
  exists slot', set_slot_fields slot upd = Some slot'.
Proof.
  intros Hd Hs He Hsub. unfold set_slot_fields.
  destruct (su_day upd); try contradiction;
    destruct (su_start_time upd); try contradiction;
    destruct (su_end_time upd); try contradiction;
    destruct (su_subject_id upd); try contradiction;
    simpl; eexists; reflexivity.
Qed.

Lemma set_slot_fields_none (slot : TimetableSlot) (upd : TimetableSlotUpdate) :
  su_day upd = Null \/ su_start_time upd = Null
  \/ su_end_time upd = Null \/ su_subject_id upd = Null ->
  set_slot_fields slot upd = None.
Proof.
  unfold set_slot_fields.
  intros [H | [H | [H | H]]]; rewrite H; simpl;
    repeat match goal with
      | |- context [setattr_required ?f ?o] => destruct (setattr_required f o)
      end; reflexivity.
Qed.

(** C9, as amended.  The slot handlers do not compare [start_time] with
    [end_time].  A creation on an existing timetable whose query finds no
    conflict is accepted and stored with the times of the request as
    sent.  An update of a stored slot whose check finds no conflict fails
    at commit, with nothing written, when [day], [start_time], [end_time]
    or [subject_id] is sent as [null]; otherwise it is accepted and the
    slot is stored with the times of the request where it carries them.
    Both hold also when [start_time >= end_time]. *)
Theorem slot_times_are_stored_as_sent
        (slot_in : TimetableSlotCreate) (slot_id : Z) (upd : TimetableSlotUpdate)
        (db : Db) (slot : TimetableSlot) :
  (first_by_id tt_id (sc_timetable_id slot_in) (timetables db) <> None ->
   create_conflicts slot_in db = [] ->
   exists created db',
     create_timetable_slot slot_in db = (Ok created, db')
     /\ slot_of (id created) db' = Some created
     /\ start_time created = sc_start_time slot_in
     /\ end_time created = sc_end_time slot_in)
  /\ (first_by_id id slot_id (slots db) = Some slot ->
      update_check slot_id slot upd db = [] ->
      (su_day upd = Null \/ su_start_time upd = Null
       \/ su_end_time upd = Null \/ su_subject_id upd = Null ->
       update_timetable_slot slot_id upd db = (Unhandled IntegrityError, db))
      /\ (su_day upd <> Null -> su_start_time upd <> Null ->
          su_end_time upd <> Null -> su_subject_id upd <> Null ->
          exists slot' db',
            update_timetable_slot slot_id upd db = (Ok slot', db')
            /\ slot_of slot_id db' = Some slot'
            /\ start_time slot' = py_or (attr (su_start_time upd)) (start_time slot)
            /\ end_time slot' = py_or (attr (su_end_time upd)) (end_time slot))).
Proof.
  split.
  - intros Htt Hc. unfold create_timetable_slot. rewrite Hc.
    destruct (first_by_id tt_id (sc_timetable_id slot_in) (timetables db));
      [|contradiction].
    eexists. eexists. split; [reflexivity|]. simpl. split; [|split; reflexivity].
    unfold slot_of. simpl. apply first_by_id_insert_fresh; reflexivity.
  - intros Hs Hc. split.
    + intros Hnull. unfold update_timetable_slot. rewrite Hs, Hc.
      now rewrite (set_slot_fields_none slot upd Hnull).
    + intros Hd Hst Hen Hsub.
      destruct (set_slot_fields_some slot upd Hd Hst Hen Hsub) as (slot' & Hf).
      unfold update_timetable_slot. rewrite Hs, Hc, Hf.
      exists slot'. eexists. split; [reflexivity|].
      destruct (set_slot_fields_candidate _ _ _ Hf) as (Hcand & Hid & _).
      unfold update_candidate in Hcand. injection Hcand as _ Hst' Hen'.
      split; [|split; assumption].
      unfold slot_of. simpl.
      apply first_by_id_commit_row with (r := slot); [assumption|].
      rewrite Hid. now apply first_by_id_some in Hs.
Qed.

Lemma slot_times_are_stored_as_sent_witness :
  (exists created db',
      create_timetable_slot (new_slot MONDAY (at_ 10 0) (at_ 9 0)) db_empty_timetable
      = (Ok created, db')
      /\ slot_of (id created) db' = Some created
      /\ start_time created = at_ 10 0
      /\ end_time created = at_ 9 0)
  /\ (exists slot' db',
        update_timetable_slot 1 (only_start_time (Value (at_ 10 0))) db_one_slot
        = (Ok slot', db')
        /\ slot_of 1 db' = Some slot'
        /\ start_time slot' = at_ 10 0
        /\ end_time slot' = at_ 9 0)
  /\ update_timetable_slot 1 (only_start_time Null) db_one_slot
     = (Unhandled IntegrityError, db_one_slot).
Proof.
  split; [|split].
  - refine (proj1 (slot_times_are_stored_as_sent
                     (new_slot MONDAY (at_ 10 0) (at_ 9 0)) 1 no_change
                     db_empty_timetable monday_8_to_9) _ _).
    + discriminate.
    + reflexivity.
  - refine (proj2 (proj2 (slot_times_are_stored_as_sent
                            (new_slot MONDAY (at_ 10 0) (at_ 9 0)) 1
                            (only_start_time (Value (at_ 10 0)))
                            db_one_slot monday_8_to_9) eq_refl eq_refl)
                  _ _ _ _); discriminate.
  - refine (proj1 (proj2 (slot_times_are_stored_as_sent
                            (new_slot MONDAY (at_ 10 0) (at_ 9 0)) 1
                            (only_start_time Null)
                            db_one_slot monday_8_to_9) eq_refl eq_refl) _).
    right. left. reflexivity.
Defined.

(** C9 as stated fails: a creation with [start_time = 10:00] and
    [end_time = 09:00] is accepted and stored, and so is an update that
    moves the start of the slot 08:00-09:00 to 10:00. *)
Lemma malformed_time_range_is_accepted :
  time_ltb (at_ 10 0) (at_ 9 0) = false
  /\ (exists created db',
         create_timetable_slot (new_slot MONDAY (at_ 10 0) (at_ 9 0))
                               db_empty_timetable
         = (Ok created, db')
         /\ slot_of 1 db' = Some created
         /\ start_time created = at_ 10 0 /\ end_time created = at_ 9 0)
  /\ (exists updated db',
         update_timetable_slot 1 (only_start_time (Value (at_ 10 0))) db_one_slot
         = (Ok updated, db')
         /\ slot_of 1 db' = Some updated
         /\ start_time updated = at_ 10 0 /\ end_time updated = at_ 9 0).
Proof.
  split; [reflexivity|].
  split; eexists; eexists; (split; [reflexivity|]); repeat split.
Qed.

(** C10, as amended.  In the update handler the presence of [day],
    [start_time] and [end_time] is decided by Python truth value, which
    for these types is true for every value, midnight included, and false
    only for [None]; the candidate falls back to the stored value only
    for a field that is [None].  So a time sent with the request, midnight
    or not, is the time the query is run with and the time that is
    written: an accepted update leaves the slot with exactly the
    candidate day and times, and when the request carried any of the
    three, the updated slot overlaps no other slot of its timetable and
    day, and a table without overlaps stays without overlaps. *)
Theorem update_checks_the_values_it_writes
        (slot_id : Z) (slot_in : TimetableSlotUpdate) (db db' : Db)
        (slot slot' : TimetableSlot) :
  first_by_id id slot_id (slots db) = Some slot ->
  update_timetable_slot slot_id slot_in db = (Ok slot', db') ->
  (forall t, su_start_time slot_in = Value t ->
             truthy (attr (su_start_time slot_in)) = true
             /\ snd (fst (update_candidate slot slot_in)) = t
             /\ start_time slot' = t)
  /\ (forall t, su_end_time slot_in = Value t ->
                truthy (attr (su_end_time slot_in)) = true
                /\ snd (update_candidate slot slot_in) = t
                /\ end_time slot' = t)
  /\ (day slot', start_time slot', end_time slot') = update_candidate slot slot_in
  /\ (time_is_being_updated slot_in = true ->
      (forall s, In s (slots db') -> id s <> slot_id ->
                 ~ overlap s slot' /\ ~ overlap slot' s)
      /\ (no_overlap (slots db) -> no_overlap (slots db'))).
Proof.
  intros Hs Hrun.
  destruct (update_timetable_slot_ok _ _ _ _ _ _ Hs Hrun) as (Hcheck & Hset & ->).
  destruct (set_slot_fields_candidate _ _ _ Hset) as (Hcand & Hid & Htt).
  destruct (first_by_id_some _ _ _ _ _ Hs) as [Hin Hslot].
  split; [|split; [|split; [exact Hcand|]]].
  - intros t Ht. rewrite <- Hcand. simpl.
    unfold update_candidate in Hcand. rewrite Ht in *. simpl in *.
    injection Hcand as _ Hst _. auto.
  - intros t Ht. rewrite <- Hcand. simpl.
    unfold update_candidate in Hcand. rewrite Ht in *. simpl in *.
    injection Hcand as _ _ Hen. auto.
  - intros Hupd. unfold update_check in Hcheck. rewrite Hupd in Hcheck.
    assert (Hother : forall s, In s (slots db) -> id s <> slot_id ->
                               ~ overlap s slot').
    { intros s Hsin Hsid (Ht & Hd & Hr).
      apply nil_no_member with (x := s) in Hcheck. apply Hcheck.
      rewrite <- Hcand. apply In_update_conflicts.
      split; [assumption|]. split; [assumption|].
      split; [congruence|]. split; assumption. }
    simpl.
    assert (Hone : forall s, In s (commit_row id slot' (slots db)) ->
                             id s <> slot_id ->
                             ~ overlap s slot' /\ ~ overlap slot' s).
    { intros s Hsin Hsid.
      assert (Hsdb : In s (slots db)).
      { apply (In_commit_row_other TimetableSlot id slot' s); [congruence | assumption]. }
      split; [now apply Hother|].
      intros Ho. apply overlap_sym in Ho. now apply (Hother s). }
    split; [exact Hone|].
    intros Hno a b Ha Hb Hab.
    destruct (In_commit_row _ _ _ _ _ Ha) as [-> | Hadb];
      destruct (In_commit_row _ _ _ _ _ Hb) as [-> | Hbdb].
    + congruence.
    + apply (Hone b Hb). congruence.
    + apply (Hone a Ha). congruence.
    + now apply Hno.
Qed.

Lemma update_checks_the_values_it_writes_witness :
  exists slot' db',
    update_timetable_slot 1 (only_start_time (Value midnight)) db_two_slots
    = (Ok slot', db')
    /\ start_time slot' = midnight
    /\ snd (fst (update_candidate monday_8_to_9
                                  (only_start_time (Value midnight)))) = midnight.
Proof.
  eexists. eexists. split; [reflexivity|].
  refine ((fun H => conj (proj2 (proj2 H)) (proj1 (proj2 H)))
            (proj1 (update_checks_the_values_it_writes
                      1 (only_start_time (Value midnight)) db_two_slots _
                      monday_8_to_9 _ eq_refl eq_refl) midnight eq_refl)).
Defined.

(** C10 as stated fails: moving the start of the slot Monday 08:00-09:00
    to midnight, next to a slot Monday 00:00-01:00, is checked with
    midnight and not with the stored 08:00 (with which no conflict would
    be found), and is rejected; nothing is written. *)
Lemma midnight_start_is_checked_as_sent :
  (exists slot,
      slot_of 2 db_midnight_slot = Some slot
      /\ start_time slot = at_ 8 0
      /\ update_candidate slot (only_start_time (Value midnight))
         = (MONDAY, midnight, at_ 9 0)
      /\ update_conflicts 2 slot (MONDAY, start_time slot, at_ 9 0)
                          db_midnight_slot = [])
  /\ truthy (attr (su_start_time (only_start_time (Value midnight)))) = true
  /\ update_timetable_slot 2 (only_start_time (Value midnight)) db_midnight_slot
     = (HTTPException HTTP_400_BAD_REQUEST conflict_detail, db_midnight_slot).
Proof.
  split; [|split; reflexivity].
  eexists. split; [reflexivity|]. repeat split.
Qed.

End TimetablesSpec.

(** * Further properties of the handlers *)

(** ** Tables *)

Section MoreTableFacts.
Variable Row : Type.
Variable row_id : Row -> Z.

(** Committing a row that was not changed changes nothing. *)
Lemma commit_row_same (i : Z) (rows : list Row) (r : Row) :
  first_by_id row_id i rows = Some r -> commit_row row_id r rows = rows.
Proof.
  unfold first_by_id. induction rows as [|x rest IH]; simpl; [reflexivity|].
  destruct (row_id x =? i)%Z eqn:E.
  - intros H. injection H as <-. now rewrite Z.eqb_refl.
  - intros H. pose proof (find_some _ _ H) as [_ Hid]. apply Z.eqb_eq in Hid.
    replace (row_id x =? row_id r)%Z with false
      by (symmetry; apply Z.eqb_neq; apply Z.eqb_neq in E; congruence).
    f_equal. now apply IH.
Qed.

Lemma commit_row_idempotent (r' : Row) (rows : list Row) :
  commit_row row_id r' (commit_row row_id r' rows) = commit_row row_id r' rows.
Proof.
  induction rows as [|x rest IH]; simpl; [reflexivity|].
  destruct (row_id x =? row_id r')%Z eqn:E; simpl.
  - now rewrite Z.eqb_refl.
  - rewrite E. now rewrite IH.
Qed.

(** Committing keeps the keys of the table, in their order. *)
Lemma map_id_commit_row (r' : Row) (rows : list Row) :
  map row_id (commit_row row_id r' rows) = map row_id rows.
Proof.
  induction rows as [|x rest IH]; simpl; [reflexivity|].
  destruct (row_id x =? row_id r')%Z eqn:E; simpl.
  - apply Z.eqb_eq in E. now rewrite E.
  - now rewrite IH.
Qed.

Lemma fresh_id_not_used (rows : list Row) :
  ~ In (fresh_id row_id rows) (map row_id rows).
Proof.
  intros H. apply in_map_iff in H. destruct H as (x & Hx & Hin).
  apply (fresh_id_above Row row_id) in Hin. lia.
Qed.

Lemma delete_row_unused (i : Z) (rows : list Row) :
  ~ In i (map row_id rows) -> delete_row row_id i rows = rows.
Proof.
  induction rows as [|x rest IH]; simpl; [reflexivity|].
  intros H. destruct (row_id x =? i)%Z eqn:E.
  - apply Z.eqb_eq in E. exfalso. apply H. now left.
  - f_equal. apply IH. intros Hin. apply H. now right.
Qed.

(** Deleting the row that was just inserted under an unused key gives the
    table back. *)
Lemma delete_row_insert_row (rows : list Row) (r : Row) :
  ~ In (row_id r) (map row_id rows) ->
  delete_row row_id (row_id r) (insert_row r rows) = rows.
Proof.
  unfold insert_row. induction rows as [|x rest IH]; simpl.
  - intros _. now rewrite Z.eqb_refl.
  - intros H. destruct (row_id x =? row_id r)%Z eqn:E.
    + apply Z.eqb_eq in E. exfalso. apply H. now left.
    + f_equal. apply IH. intros Hin. apply H. now right.
Qed.

Lemma In_delete_row (i : Z) (rows : list Row) (x : Row) :
  In x (delete_row row_id i rows) -> In x rows.
Proof.
  induction rows as [|y rest IH]; simpl; [tauto|].
  destruct (row_id y =? i)%Z; simpl; [tauto|].
  intros [H | H]; [now left | right; now apply IH].
Qed.

Lemma In_map_id_delete_row (i k : Z) (rows : list Row) :
  In k (map row_id (delete_row row_id i rows)) -> In k (map row_id rows).
Proof.
  rewrite !in_map_iff. intros (x & Hx & Hin). exists x.
  split; [assumption | now apply In_delete_row with (i := i)].
Qed.

Lemma NoDup_delete_row (i : Z) (rows : list Row) :
  NoDup (map row_id rows) -> NoDup (map row_id (delete_row row_id i rows)).
Proof.
  induction rows as [|x rest IH]; simpl; [auto|].
  intros H. inversion H as [|y l Hnin Hnd]; subst.
  destruct (row_id x =? i)%Z; simpl; [assumption|].
  constructor; [|now apply IH].
  intros Hin. apply Hnin. now apply In_map_id_delete_row with (i := i).
Qed.

(** With unique keys, a deleted row is not found any more. *)
Lemma first_by_id_delete_row (i : Z) (rows : list Row) :
  NoDup (map row_id rows) ->
  first_by_id row_id i (delete_row row_id i rows) = None.
Proof.
  unfold first_by_id. induction rows as [|x rest IH]; simpl; [reflexivity|].
  intros H. inversion H as [|y l Hnin Hnd]; subst.
  destruct (row_id x =? i)%Z eqn:E; simpl.
  - apply Z.eqb_eq in E. subst i.
    destruct (find (fun r => (row_id r =? row_id x)%Z) rest) as [z|] eqn:F;
      [|reflexivity].
    apply find_some in F. destruct F as [Hin Hid]. apply Z.eqb_eq in Hid.
    exfalso. apply Hnin. rewrite <- Hid. now apply in_map.
  - rewrite E. now apply IH.
Qed.

(** Deleting does not change what a lookup by another key returns. *)
Lemma first_by_id_delete_row_other (i j : Z) (rows : list Row) :
  j <> i ->
  first_by_id row_id j (delete_row row_id i rows) = first_by_id row_id j rows.
Proof.
  unfold first_by_id. intros Hne.
  induction rows as [|x rest IH]; simpl; [reflexivity|].
  destruct (row_id x =? i)%Z eqn:E; simpl.
  - apply Z.eqb_eq in E.
    replace (row_id x =? j)%Z with false
      by (symmetry; apply Z.eqb_neq; congruence).
    reflexivity.
  - destruct (row_id x =? j)%Z; [reflexivity | exact IH].
Qed.

(** Inserting does not change what a lookup that succeeded returns, nor a
    lookup by another key. *)
Lemma first_by_id_insert_row_other (i : Z) (rows : list Row) (r : Row) :
  row_id r <> i ->
  first_by_id row_id i (insert_row r rows) = first_by_id row_id i rows.
Proof.
  unfold first_by_id, insert_row. intros Hne.
  induction rows as [|x rest IH]; simpl.
  - replace (row_id r =? i)%Z with false by (symmetry; now apply Z.eqb_neq).
    reflexivity.
  - destruct (row_id x =? i)%Z; [reflexivity | exact IH].
Qed.

End MoreTableFacts.

(** ** Timetable slots *)

Module TimetablesExtra.
Import Timetables TimetablesFacts.

Lemma db_eta (db : Db) : {| timetables := timetables db; slots := slots db |} = db.
Proof. now destruct db. Qed.

Lemma NoDup_snoc {A : Type} (l : list A) (x : A) :
  NoDup l -> ~ In x l -> NoDup (l ++ [x]).
Proof.
  induction l as [|a l IH]; simpl; intros Hnd Hnin.
  - constructor; [intros [] | constructor].
  - inversion Hnd as [|b l' Ha Hl]; subst. constructor.
    + rewrite in_app_iff. simpl. intros [H | [H | []]]; [contradiction|].
      apply Hnin. now left.
    + apply IH; [assumption|]. intros H. apply Hnin. now right.
Qed.

(** What an accepted creation has done. *)
Lemma create_timetable_slot_ok (slot_in : TimetableSlotCreate) (db db' : Db)
      (slot : TimetableSlot) :
  create_timetable_slot slot_in db = (Ok slot, db') ->
  create_conflicts slot_in db = []
  /\ id slot = fresh_id id (slots db)
  /\ timetable_id slot = sc_timetable_id slot_in
  /\ day slot = sc_day slot_in
  /\ start_time slot = sc_start_time slot_in
  /\ end_time slot = sc_end_time slot_in
  /\ db' = {| timetables := timetables db; slots := insert_row slot (slots db) |}.
Proof.
  unfold create_timetable_slot.
  destruct (first_by_id tt_id (sc_timetable_id slot_in) (timetables db));
    [|discriminate].
  destruct (create_conflicts slot_in db); [|discriminate].
  intros H. injection H as <- <-. simpl. repeat split.
Qed.

(** When line 293 is false the candidate is the stored day and times. *)
Lemma update_candidate_not_updated (slot : TimetableSlot) (slot_in : TimetableSlotUpdate) :
  time_is_being_updated slot_in = false ->
  update_candidate slot slot_in = (day slot, start_time slot, end_time slot).
Proof.
  unfold time_is_being_updated, update_candidate.
  destruct (attr (su_day slot_in)), (attr (su_start_time slot_in)),
    (attr (su_end_time slot_in)); simpl; intros H; try discriminate; reflexivity.
Qed.

(** After an accepted update no other stored slot overlaps the updated
    one, provided the table had no overlaps when the check was skipped. *)
Lemma update_ok_no_conflict (slot_id : Z) (slot_in : TimetableSlotUpdate)
      (db db' : Db) (slot slot' s : TimetableSlot) :
  first_by_id id slot_id (slots db) = Some slot ->
  update_timetable_slot slot_id slot_in db = (Ok slot', db') ->
  no_overlap (slots db) ->
  In s (slots db) -> id s <> slot_id -> ~ overlap s slot'.
Proof.
  intros Hs Hrun Hno Hin Hid (Ht & Hd & Hr).
  destruct (update_timetable_slot_ok _ _ _ _ _ _ Hs Hrun) as (Hcheck & Hset & _).
  destruct (set_slot_fields_candidate _ _ _ Hset) as (Hcand & Hid' & Htt).
  destruct (first_by_id_some _ _ _ _ _ Hs) as [Hslot_in Hslot_id].
  unfold update_check in Hcheck.
  destruct (time_is_being_updated slot_in) eqn:Hupd.
  - apply nil_no_member with (x := s) in Hcheck. apply Hcheck.
    rewrite <- Hcand. apply In_update_conflicts.
    split; [assumption|]. split; [assumption|].
    split; [congruence|]. split; assumption.
  - rewrite (update_candidate_not_updated _ _ Hupd) in Hcand.
    injection Hcand as Hd' Hst' Hen'.
    apply (Hno s slot Hin Hslot_in); [congruence|].
    unfold overlap. rewrite <- Hd', <- Hst', <- Hen', <- Htt. auto.
Qed.

(** A request that is not accepted writes nothing. *)
Lemma create_timetable_slot_rejected (slot_in : TimetableSlotCreate) (db : Db) :
  is_ok (fst (create_timetable_slot slot_in db)) = false ->
  snd (create_timetable_slot slot_in db) = db.
Proof.
  unfold create_timetable_slot.
  destruct (first_by_id tt_id (sc_timetable_id slot_in) (timetables db));
    [|reflexivity].
  destruct (create_conflicts slot_in db); [discriminate | reflexivity].
Qed.

Lemma update_timetable_slot_rejected (slot_id : Z) (slot_in : TimetableSlotUpdate)
      (db : Db) :
  is_ok (fst (update_timetable_slot slot_id slot_in db)) = false ->
  snd (update_timetable_slot slot_id slot_in db) = db.
Proof.
  unfold update_timetable_slot.
  destruct (first_by_id id slot_id (slots db)) as [slot|]; [|reflexivity].
  destruct (update_check slot_id slot slot_in db); [|reflexivity].
  destruct (set_slot_fields slot slot_in); [discriminate | reflexivity].
Qed.

Lemma create_keeps_no_overlap (slot_in : TimetableSlotCreate) (db : Db) :
  no_overlap (slots db) ->
  no_overlap (slots (snd (create_timetable_slot slot_in db))).
Proof.
  intros Hno.
  destruct (is_ok (fst (create_timetable_slot slot_in db))) eqn:Hok;
    [|now rewrite create_timetable_slot_rejected].
  destruct (create_timetable_slot slot_in db) as [resp db'] eqn:Hrun.
  destruct resp as [slot | code detail | e]; try discriminate.
  destruct (create_timetable_slot_ok _ _ _ _ Hrun)
    as (Hc & Hfresh & Ht & Hd & Hst & Hen & ->).
  simpl. unfold insert_row.
  assert (Hnew : forall b, In b (slots db) -> ~ overlap b slot).
  { intros b Hb (Hbt & Hbd & Hbr).
    apply nil_no_member with (x := b) in Hc. apply Hc.
    apply In_create_conflicts. rewrite <- Ht, <- Hd, <- Hst, <- Hen. auto. }
  intros a b Ha Hb Hab. apply in_app_iff in Ha, Hb. simpl in Ha, Hb.
  destruct Ha as [Ha | [<- | []]]; destruct Hb as [Hb | [<- | []]].
  - now apply Hno.
  - now apply Hnew.
  - intros Ho. apply overlap_sym in Ho. now apply (Hnew b).
  - congruence.
Qed.

Lemma update_keeps_no_overlap (slot_id : Z) (slot_in : TimetableSlotUpdate) (db : Db) :
  no_overlap (slots db) ->
  no_overlap (slots (snd (update_timetable_slot slot_id slot_in db))).
Proof.
  intros Hno.
  destruct (is_ok (fst (update_timetable_slot slot_id slot_in db))) eqn:Hok;
    [|now rewrite update_timetable_slot_rejected].
  destruct (update_timetable_slot slot_id slot_in db) as [resp db'] eqn:Hrun.
  destruct resp as [slot' | code detail | e]; try discriminate.
  destruct (first_by_id id slot_id (slots db)) as [slot|] eqn:Hs.
  2: { unfold update_timetable_slot in Hrun. rewrite Hs in Hrun. discriminate. }
  destruct (update_timetable_slot_ok _ _ _ _ _ _ Hs Hrun) as (_ & Hset & Hdb).
  destruct (set_slot_fields_candidate _ _ _ Hset) as (_ & Hid' & _).
  destruct (first_by_id_some _ _ _ _ _ Hs) as [_ Hslot_id].
  assert (Hone : forall s, In s (commit_row id slot' (slots db)) ->
                           id s <> id slot' -> ~ overlap s slot').
  { intros s Hsin Hsid.
    apply (update_ok_no_conflict slot_id slot_in db db' slot slot' s Hs Hrun Hno).
    - now apply (In_commit_row_other TimetableSlot id slot' s).
    - congruence. }
  subst db'. simpl.
  intros a b Ha Hb Hab.
  destruct (In_commit_row _ _ _ _ _ Ha) as [-> | Hadb];
    destruct (In_commit_row _ _ _ _ _ Hb) as [-> | Hbdb].
  - congruence.
  - intros Ho. apply overlap_sym in Ho. apply (Hone b Hb); congruence.
  - apply (Hone a Ha). congruence.
  - now apply Hno.
Qed.

Lemma serve_slot_no_overlap (q : SlotRequest) (db : Db) :
  no_overlap (slots db) -> no_overlap (slots (serve_slot q db)).
Proof.
  intros Hno. destruct q as [slot_in | slot_id slot_in | slot_id]; simpl.
  - now apply create_keeps_no_overlap.
  - now apply update_keeps_no_overlap.
  - unfold delete_timetable_slot.
    destruct (first_by_id id slot_id (slots db)); simpl; [|exact Hno].
    intros a b Ha Hb.
    apply Hno; now apply In_delete_row with (i := slot_id) (row_id := id).
Qed.

Lemma serve_slot_ids_unique (q : SlotRequest) (db : Db) :
  slot_ids_unique db -> slot_ids_unique (serve_slot q db).
Proof.
  unfold slot_ids_unique. intros Hnd.
  destruct q as [slot_in | slot_id slot_in | slot_id]; simpl.
  - unfold create_timetable_slot.
    destruct (first_by_id tt_id (sc_timetable_id slot_in) (timetables db));
      [|exact Hnd].
    destruct (create_conflicts slot_in db); [|exact Hnd].
    simpl. unfold insert_row. rewrite map_app. simpl.
    apply NoDup_snoc; [exact Hnd | apply fresh_id_not_used].
  - unfold update_timetable_slot.
    destruct (first_by_id id slot_id (slots db)) as [slot|]; [|exact Hnd].
    destruct (update_check slot_id slot slot_in db); [|exact Hnd].
    destruct (set_slot_fields slot slot_in); [|exact Hnd].
    simpl. now rewrite map_id_commit_row.
  - unfold delete_timetable_slot.
    destruct (first_by_id id slot_id (slots db)); [|exact Hnd].
    simpl. now apply NoDup_delete_row.
Qed.

Lemma serve_slots_app (qs : list SlotRequest) (q : SlotRequest) (db : Db) :
  serve_slots (q :: qs) db = serve_slots qs (serve_slot q db).
Proof. reflexivity. Qed.

(** X1.  Every sequence of slot creations, updates and deletions keeps
    the invariant of the data model: if no two stored slots of one
    timetable and day overlap before, none do after. *)
Theorem slot_requests_keep_no_overlap (requests : list SlotRequest) (db : Db) :
  no_overlap (slots db) -> no_overlap (slots (serve_slots requests db)).
Proof.
  revert db. induction requests as [|q rest IH]; intros db Hno.
  - exact Hno.
  - rewrite serve_slots_app. apply IH. now apply serve_slot_no_overlap.
Qed.

Lemma slot_requests_keep_no_overlap_witness :
  no_overlap (slots db_empty_timetable)
  /\ no_overlap
       (slots (serve_slots
                 [PostSlot (new_slot MONDAY (at_ 8 0) (at_ 9 0));
                  PostSlot (new_slot MONDAY (at_ 8 30) (at_ 9 30));
                  PostSlot (new_slot MONDAY (at_ 9 0) (at_ 10 0));
                  PutSlot 2 (only_start_time (Value (at_ 8 30)));
                  PutSlot 2 (only_day (Value TUESDAY));
                  DeleteSlot 1]
                 db_empty_timetable)).
Proof.
  assert (H : no_overlap (slots db_empty_timetable)) by (intros a b []).
  split; [exact H|].
  exact (slot_requests_keep_no_overlap _ db_empty_timetable H).
Defined.

(** X2.  Every sequence of slot creations, updates and deletions keeps
    the primary keys of the slot table pairwise different: a creation
    takes a key that no stored slot has, an update keeps the keys, a
    deletion removes one. *)
Theorem slot_requests_keep_ids_unique (requests : list SlotRequest) (db : Db) :
  slot_ids_unique db -> slot_ids_unique (serve_slots requests db).
Proof.
  revert db. induction requests as [|q rest IH]; intros db Hnd.
  - exact Hnd.
  - rewrite serve_slots_app. apply IH. now apply serve_slot_ids_unique.
Qed.

Lemma slot_requests_keep_ids_unique_witness :
  slot_ids_unique db_two_slots
  /\ slot_ids_unique
       (serve_slots
          [DeleteSlot 1; PostSlot (new_slot FRIDAY (at_ 8 0) (at_ 9 0));
           PutSlot 2 (only_day (Value TUESDAY))]
          db_two_slots).
Proof.
  assert (H : slot_ids_unique db_two_slots).
  { unfold slot_ids_unique. simpl.
    constructor; [intros [H | []]; discriminate|].
    constructor; [intros []|constructor]. }
  split; [exact H|].
  exact (slot_requests_keep_ids_unique _ db_two_slots H).
Defined.

(** X3.  Deleting a slot that was just created, under the id the creation
    returned, answers with that slot and gives back the database as it was
    before the creation. *)
Theorem create_then_delete_slot_restores
        (slot_in : TimetableSlotCreate) (db db' : Db) (slot : TimetableSlot) :
  create_timetable_slot slot_in db = (Ok slot, db') ->
  delete_timetable_slot (id slot) db' = (Ok slot, db).
Proof.
  intros Hrun.
  destruct (create_timetable_slot_ok _ _ _ _ Hrun) as (_ & Hfresh & _ & _ & _ & _ & ->).
  unfold delete_timetable_slot. simpl.
  rewrite (first_by_id_insert_fresh TimetableSlot id (id slot) (slots db) slot
             eq_refl Hfresh).
  rewrite delete_row_insert_row.
  - now rewrite db_eta.
  - rewrite Hfresh. apply fresh_id_not_used.
Qed.

Lemma create_then_delete_slot_restores_witness :
  exists slot,
    create_timetable_slot (new_slot MONDAY (at_ 9 0) (at_ 10 0)) db_one_slot
    = (Ok slot, db_two_slots)
    /\ delete_timetable_slot (id slot) db_two_slots = (Ok slot, db_one_slot).
Proof.
  eexists. split; [reflexivity|].
  apply (create_then_delete_slot_restores
           (new_slot MONDAY (at_ 9 0) (at_ 10 0)) db_one_slot db_two_slots).
  reflexivity.
Defined.

(** A query that never selects rows with the key of the committed row
    returns the same rows before and after the commit. *)
Lemma filter_commit_row_excluded (f : TimetableSlot -> bool) (slot' : TimetableSlot)
      (rows : list TimetableSlot) :
  (forall x, id x = id slot' -> f x = false) ->
  filter f (commit_row id slot' rows) = filter f rows.
Proof.
  intros Hf. induction rows as [|x rest IH]; simpl; [reflexivity|].
  destruct (id x =? id slot')%Z eqn:E; simpl.
  - apply Z.eqb_eq in E. now rewrite (Hf x E), (Hf slot' eq_refl).
  - now rewrite IH.
Qed.

Lemma setattr_nullable_twice {A : Type} (f : Field A) (old : option A) :
  setattr_nullable f (setattr_nullable f old) = setattr_nullable f old.
Proof. now destruct f. Qed.

(** Assigning the same request again changes nothing more, and the
    candidate of the second check is the candidate of the first. *)
Lemma set_slot_fields_twice (slot slot' : TimetableSlot) (slot_in : TimetableSlotUpdate) :
  set_slot_fields slot slot_in = Some slot' ->
  set_slot_fields slot' slot_in = Some slot'
  /\ update_candidate slot' slot_in = update_candidate slot slot_in.
Proof.
  unfold set_slot_fields, update_candidate.
  destruct slot_in as [fd fs fe fr fsub ft]; simpl.
  destruct fd, fs, fe, fsub; simpl; intros H; try discriminate;
    injection H as <-; simpl; rewrite !setattr_nullable_twice; auto.
Qed.

(** X4.  The slot update is idempotent: sending the same update request a
    second time gives the same response as the first time and leaves the
    database as the first request left it. *)
Theorem update_timetable_slot_idempotent
        (slot_id : Z) (slot_in : TimetableSlotUpdate) (db : Db) :
  update_timetable_slot slot_id slot_in (snd (update_timetable_slot slot_id slot_in db))
  = update_timetable_slot slot_id slot_in db.
Proof.
  destruct (is_ok (fst (update_timetable_slot slot_id slot_in db))) eqn:Hok;
    [|now rewrite update_timetable_slot_rejected].
  destruct (update_timetable_slot slot_id slot_in db) as [resp db'] eqn:Hrun.
  destruct resp as [slot' | code detail | e]; try discriminate.
  destruct (first_by_id id slot_id (slots db)) as [slot|] eqn:Hs.
  2: { unfold update_timetable_slot in Hrun. rewrite Hs in Hrun. discriminate. }
  destruct (update_timetable_slot_ok _ _ _ _ _ _ Hs Hrun) as (Hcheck & Hset & ->).
  destruct (set_slot_fields_candidate _ _ _ Hset) as (_ & Hid' & Htt).
  destruct (set_slot_fields_twice _ _ _ Hset) as (Hset' & Hcand').
  destruct (first_by_id_some _ _ _ _ _ Hs) as [_ Hslot_id].
  simpl. unfold update_timetable_slot at 1. simpl.
  rewrite (first_by_id_commit_row TimetableSlot id slot_id (slots db) slot slot' Hs)
    by congruence.
  assert (Hcheck' : update_check slot_id slot' slot_in
                      {| timetables := timetables db;
                         slots := commit_row id slot' (slots db) |} = []).
  { unfold update_check in *.
    destruct (time_is_being_updated slot_in); [|reflexivity].
    rewrite Hcand'. rewrite <- Hcheck.
    destruct (update_candidate slot slot_in) as [[d st] en].
    unfold update_conflicts. simpl. rewrite Htt.
    apply filter_commit_row_excluded.
    intros x Hx.
    replace (id x =? slot_id)%Z with true
      by (symmetry; apply Z.eqb_eq; congruence).
    reflexivity. }
  rewrite Hcheck', Hset'. now rewrite commit_row_idempotent.
Qed.

(** X5.  An update request that sets no field answers with the stored
    slot and leaves the database exactly as it was. *)
Theorem empty_update_changes_nothing (slot_id : Z) (db : Db) (slot : TimetableSlot) :
  first_by_id id slot_id (slots db) = Some slot ->
  update_timetable_slot slot_id no_change db = (Ok slot, db).
Proof.
  intros Hs. unfold update_timetable_slot. rewrite Hs.
  change (update_check slot_id slot no_change db) with (@nil TimetableSlot).
  assert (Hsame : set_slot_fields slot no_change = Some slot) by now destruct slot.
  rewrite Hsame.
  rewrite (commit_row_same TimetableSlot id slot_id (slots db) slot Hs).
  now rewrite db_eta.
Qed.

Lemma empty_update_changes_nothing_witness :
  update_timetable_slot 1 no_change db_two_slots = (Ok monday_8_to_9, db_two_slots).
Proof.
  apply (empty_update_changes_nothing 1 db_two_slots monday_8_to_9). reflexivity.
Defined.

(** X6.  With pairwise different keys, deleting a stored slot answers with
    that slot; afterwards the slot is not found (404), and every other id
    is answered as before the deletion. *)
Theorem delete_timetable_slot_removes_that_slot
        (slot_id : Z) (db : Db) (slot : TimetableSlot) :
  slot_ids_unique db ->
  first_by_id id slot_id (slots db) = Some slot ->
  exists db',
    delete_timetable_slot slot_id db = (Ok slot, db')
    /\ get_timetable_slot slot_id db'
       = (HTTPException HTTP_404_NOT_FOUND "Timetable slot not found", db')
    /\ forall j, j <> slot_id ->
                 fst (get_timetable_slot j db') = fst (get_timetable_slot j db).
Proof.
  intros Hnd Hs. unfold delete_timetable_slot. rewrite Hs.
  eexists. split; [reflexivity|]. unfold get_timetable_slot. simpl. split.
  - now rewrite first_by_id_delete_row.
  - intros j Hj. rewrite first_by_id_delete_row_other by assumption.
    now destruct (first_by_id id j (slots db)).
Qed.

Lemma delete_timetable_slot_removes_that_slot_witness :
  exists db',
    delete_timetable_slot 1 db_two_slots = (Ok monday_8_to_9, db')
    /\ get_timetable_slot 1 db'
       = (HTTPException HTTP_404_NOT_FOUND "Timetable slot not found", db')
    /\ forall j, j <> 1%Z ->
                 fst (get_timetable_slot j db') = fst (get_timetable_slot j db_two_slots).
Proof.
  apply (delete_timetable_slot_removes_that_slot 1 db_two_slots monday_8_to_9).
  - unfold slot_ids_unique. simpl.
    constructor; [intros [H | []]; discriminate|].
    constructor; [intros []|constructor].
  - reflexivity.
Defined.

(** X7.  An accepted update keeps the id and the timetable of the slot,
    keeps the keys of the table in their order, is what a later read of
    that id returns, and changes what no other id returns. *)
Theorem update_timetable_slot_touches_one_slot
        (slot_id : Z) (slot_in : TimetableSlotUpdate) (db db' : Db)
        (slot slot' : TimetableSlot) :
  first_by_id id slot_id (slots db) = Some slot ->
  update_timetable_slot slot_id slot_in db = (Ok slot', db') ->
  id slot' = slot_id
  /\ timetable_id slot' = timetable_id slot
  /\ timetables db' = timetables db
  /\ map id (slots db') = map id (slots db)
  /\ get_timetable_slot slot_id db' = (Ok slot', db')
  /\ forall j, j <> slot_id ->
               fst (get_timetable_slot j db') = fst (get_timetable_slot j db).
Proof.
  intros Hs Hrun.
  destruct (update_timetable_slot_ok _ _ _ _ _ _ Hs Hrun) as (_ & Hset & ->).
  destruct (set_slot_fields_candidate _ _ _ Hset) as (_ & Hid' & Htt).
  destruct (first_by_id_some _ _ _ _ _ Hs) as [_ Hslot_id].
  assert (Hk : id slot' = slot_id) by congruence.
  split; [exact Hk|]. split; [exact Htt|]. split; [reflexivity|]. simpl.
  split; [apply map_id_commit_row|]. unfold get_timetable_slot. simpl. split.
  - now rewrite (first_by_id_commit_row TimetableSlot id slot_id (slots db) slot slot' Hs Hk).
  - intros j Hj. rewrite first_by_id_commit_row_other by congruence.
    now destruct (first_by_id id j (slots db)).
Qed.

Lemma update_timetable_slot_touches_one_slot_witness :
  exists slot' db',
    update_timetable_slot 1 (only_day (Value FRIDAY)) db_two_slots = (Ok slot', db')
    /\ id slot' = 1%Z
    /\ timetable_id slot' = 1%Z
    /\ get_timetable_slot 1 db' = (Ok slot', db').
Proof.
  eexists. eexists. split; [reflexivity|].
  refine ((fun H => conj (proj1 H)
                      (conj (proj1 (proj2 H))
                            (proj1 (proj2 (proj2 (proj2 (proj2 H)))))))
            (update_timetable_slot_touches_one_slot
               1 (only_day (Value FRIDAY)) db_two_slots _ monday_8_to_9 _
               eq_refl eq_refl)).
Defined.

End TimetablesExtra.

(** ** Payments *)

Module PaymentsExtra.
Import Payments PaymentsFacts.

(** Committing a row that agrees with the stored one on [g] keeps the
    column [g] of the table. *)
Lemma map_commit_row_same_on {B : Type} (g : FeeRecord -> B) (j : Z)
      (frs : list FeeRecord) (r2 r2' : FeeRecord) :
  first_by_id fr_id j frs = Some r2 -> fr_id r2' = j -> g r2' = g r2 ->
  map g (commit_row fr_id r2' frs) = map g frs.
Proof.
  unfold first_by_id. intros H2 Hid Hg. subst j.
  induction frs as [|x rest IH]; simpl in *; [reflexivity|].
  destruct (fr_id x =? fr_id r2')%Z.
  - injection H2 as ->. simpl. now rewrite Hg.
  - simpl. f_equal. now apply IH.
Qed.

Lemma serve_keeps_fee_record_keys (q : PaymentRequest) (db : Db) :
  map (fun r => (fr_id r, total_amount r)) (fee_records (serve q db))
  = map (fun r => (fr_id r, total_amount r)) (fee_records db).
Proof.
  destruct (serve_fee_records q db) as [-> | (r2 & r2' & H2 & (Hid & Htot & _) & ->)];
    [reflexivity|].
  apply map_commit_row_same_on with (j := fr_id r2') (r2 := r2);
    [exact H2 | reflexivity | now rewrite Hid, Htot].
Qed.

(** X10.  The payment operations never add, remove or reorder fee
    records and never change the id or the [total_amount] of one: after
    each request of every sequence of payment creations, updates and
    deletions the fee record table lists the same ids with the same totals
    as at the start. *)
Theorem payment_requests_keep_fee_record_totals
        (requests : list PaymentRequest) (db : Db) :
  Forall (fun db' =>
            map (fun r => (fr_id r, total_amount r)) (fee_records db')
            = map (fun r => (fr_id r, total_amount r)) (fee_records db))
         (request_trace db requests).
Proof.
  revert db. induction requests as [|q rest IH]; intros db; simpl.
  - constructor.
  - pose proof (serve_keeps_fee_record_keys q db) as Hq.
    constructor; [exact Hq|].
    specialize (IH (serve q db)). rewrite Hq in IH. exact IH.
Qed.

(** X11.  An update that changes the amount of a payment whose fee record
    is stored with a number as [paid_amount] replaces the old amount by the
    new one in [paid_amount], sets [balance = total_amount - paid_amount],
    and sets the status by the whole ordered table (PAID, else
    PARTIALLY_PAID, else PENDING), whatever the record was before. *)
Theorem update_payment_applies_status_table
        (payment_id : Z) (new_amount : Q) (db : Db) (payment : Payment)
        (r : FeeRecord) (paid : Q) :
  first_by_id p_id payment_id (payments db) = Some payment ->
  fee_record_of (fee_record_id payment) db = Some r ->
  paid_amount r = Some paid ->
  ~ new_amount == amount payment ->
  exists payment' db' r',
    update_payment payment_id (only_amount (Value new_amount)) db = (Ok payment', db')
    /\ amount payment' = new_amount
    /\ fee_record_of (fee_record_id payment) db' = Some r'
    /\ total_amount r' = total_amount r
    /\ paid_amount r' = Some (paid - amount payment + new_amount)
    /\ balance r' = total_amount r' - (paid - amount payment + new_amount)
    /\ status r' = derived_status (balance r') (paid - amount payment + new_amount).
Proof.
  unfold fee_record_of. intros Hp Hr Hpaid Hne.
  assert (Hg : amount_was_updated (only_amount (Value new_amount)) (amount payment)
               = true).
  { unfold amount_was_updated. simpl. apply negb_true_iff.
    destruct (Qeq_bool new_amount (amount payment)) eqn:E; [|reflexivity].
    apply Qeq_bool_iff in E. contradiction. }
  unfold update_payment. rewrite Hp, Hg, Hr. simpl.
  unfold apply_amended_payment. rewrite Hpaid.
  eexists. eexists. eexists. split; [reflexivity|]. split; [reflexivity|].
  split.
  { simpl. apply first_by_id_commit_row with (r := r); [exact Hr|].
    simpl. now apply first_by_id_some in Hr. }
  simpl. repeat split; reflexivity.
Qed.

Lemma update_payment_applies_status_table_witness :
  exists payment' db' r',
    update_payment 2 (only_amount (Value 0)) db_overpaid = (Ok payment', db')
    /\ amount payment' = 0
    /\ fee_record_of 1 db' = Some r'
    /\ total_amount r' = 1000
    /\ paid_amount r' = Some ((0 + 1000 + 1000) - 1000 + 0)
    /\ balance r' = total_amount r' - ((0 + 1000 + 1000) - 1000 + 0)
    /\ status r' = derived_status (balance r') ((0 + 1000 + 1000) - 1000 + 0).
Proof.
  apply (update_payment_applies_status_table 2 0 db_overpaid
           (payment_row 2 1000 1)
           (fee_record_1 1000 (0 + 1000 + 1000) (1000 - (0 + 1000 + 1000)) PAID)
           (0 + 1000 + 1000)).
  - reflexivity.
  - reflexivity.
  - reflexivity.
  - intros H. vm_compute in H. discriminate.
Defined.

(** X12.  For a new amount that is not negative, removing a payment and
    creating it again with the new amount leaves the fee record exactly as
    amending the payment does (and raises on a NULL [paid_amount] exactly
    when amending does). *)
Theorem remove_then_create_is_amend (record : FeeRecord) (old_amount new_amount : Q) :
  0 <= new_amount ->
  match apply_removed_payment record old_amount with
  | Some removed => apply_new_payment removed new_amount
  | None => None
  end
  = apply_amended_payment record old_amount new_amount.
Proof.
  intros Hn. unfold apply_new_payment, apply_removed_payment, apply_amended_payment.
  destruct (paid_amount record) as [paid|]; [|reflexivity].
  simpl. f_equal. f_equal.
  status_cases; try reflexivity. lra.
Qed.

Lemma remove_then_create_is_amend_witness :
  match apply_removed_payment record_overdue 0 with
  | Some removed => apply_new_payment removed 3000
  | None => None
  end
  = apply_amended_payment record_overdue 0 3000.
Proof.
  apply (remove_then_create_is_amend record_overdue 0 3000).
  unfold Qle. simpl. lia.
Defined.



(** A request that is not answered with the payment writes nothing. *)
Lemma update_payment_rejected (payment_id : Z) (payment_in : PaymentUpdate) (db : Db) :
  is_ok (fst (update_payment payment_id payment_in db)) = false ->
  snd (update_payment payment_id payment_in db) = db.
Proof.
  unfold update_payment.
  destruct (first_by_id p_id payment_id (payments db)) as [p|]; [|reflexivity].
  destruct (amount_was_updated payment_in (amount p));
    [destruct (first_by_id fr_id (fee_record_id p) (fee_records db)) as [r|];
     [destruct (attr (pu_amount payment_in)) as [a|];
      [destruct (apply_amended_payment r (amount p) a)|]|]|];
    try reflexivity;
    destruct (set_payment_fields p payment_in);
    try reflexivity; discriminate.
Qed.

(** On the payment that an update committed, the assignments of the same
    request change nothing and the guard of line 566 is false. *)
Lemma set_payment_fields_again (p p' : Payment) (payment_in : PaymentUpdate) :
  set_payment_fields p payment_in = Some p' ->
  set_payment_fields p' payment_in = Some p'
  /\ amount_was_updated payment_in (amount p') = false.
Proof.
  unfold set_payment_fields, amount_was_updated, setattr_required.
  destruct (pu_amount payment_in) as [| |a]; try discriminate;
    destruct (pu_payment_date payment_in) as [| |d]; try discriminate;
    destruct (pu_payment_method payment_in) as [| |m]; try discriminate;
    intros H; injection H as <-; simpl;
    (split; [reflexivity | try reflexivity; now rewrite Qeq_bool_refl]).
Qed.

(** An update whose assignments change nothing on the stored payment and
    whose guard is false commits the payment as it is and leaves the fee
    records. *)
Lemma update_payment_again (payment_id : Z) (payment_in : PaymentUpdate) (db : Db)
      (p' : Payment) :
  first_by_id p_id payment_id (payments db) = Some p' ->
  set_payment_fields p' payment_in = Some p' ->
  amount_was_updated payment_in (amount p') = false ->
  update_payment payment_id payment_in db
  = (Ok p', {| fee_records := fee_records db;
               payments := commit_row p_id p' (payments db) |}).
Proof.
  intros Hp Hset Hg. unfold update_payment. now rewrite Hp, Hg, Hset.
Qed.

(** X14.  The payment update is idempotent: sending the same update
    request a second time gives the same response as the first time and
    leaves the database, the fee record included, as the first request
    left it. *)
Theorem update_payment_idempotent
        (payment_id : Z) (payment_in : PaymentUpdate) (db : Db) :
  update_payment payment_id payment_in (snd (update_payment payment_id payment_in db))
  = update_payment payment_id payment_in db.
Proof.
  destruct (is_ok (fst (update_payment payment_id payment_in db))) eqn:Hok;
    [|now rewrite update_payment_rejected].
  unfold update_payment in Hok |- * at 2 3.
  destruct (first_by_id p_id payment_id (payments db)) as [p|] eqn:Ep;
    [|discriminate].
  destruct (first_by_id_some _ _ _ _ _ Ep) as [_ Hpid].
  destruct (set_payment_fields p payment_in) as [p'|] eqn:Hset;
    [|destruct (amount_was_updated payment_in (amount p));
      [destruct (first_by_id fr_id (fee_record_id p) (fee_records db)) as [r|];
       [destruct (attr (pu_amount payment_in)) as [a|];
        [destruct (apply_amended_payment r (amount p) a)|]|]|];
      discriminate].
  destruct (set_payment_fields_some _ _ _ Hset) as (Hid' & _ & _).
  destruct (set_payment_fields_again _ _ _ Hset) as [Hset' Hg].
  assert (Hp' : first_by_id p_id payment_id (commit_row p_id p' (payments db))
                = Some p').
  { apply first_by_id_commit_row with (r := p); [exact Ep | congruence]. }
  assert (Hsecond : forall frs,
             update_payment payment_id payment_in
               {| fee_records := frs; payments := commit_row p_id p' (payments db) |}
             = (Ok p', {| fee_records := frs;
                          payments := commit_row p_id p' (payments db) |})).
  { intros frs.
    rewrite (update_payment_again payment_id payment_in
               {| fee_records := frs; payments := commit_row p_id p' (payments db) |}
               p' Hp' Hset' Hg).
    cbn [fee_records payments]. now rewrite commit_row_idempotent. }
  destruct (amount_was_updated payment_in (amount p)).
  - destruct (first_by_id fr_id (fee_record_id p) (fee_records db)) as [r|].
    + destruct (attr (pu_amount payment_in)) as [a|]; [|discriminate].
      destruct (apply_amended_payment r (amount p) a) as [r'|]; [|discriminate].
      cbn [snd]. apply Hsecond.
    + cbn [snd]. apply Hsecond.
  - cbn [snd]. apply Hsecond.
Qed.

(** X15.  A fee record whose [paid_amount] is NULL (an update sent it as
    [null]) is stuck: reading it fails the validation of the response, and
    creating a payment for it, deleting one of its payments, or changing
    the amount of one, raises TypeError with nothing written. *)
Theorem null_paid_amount_blocks_payments
        (i : Z) (db : Db) (r : FeeRecord) (payment_in : PaymentCreate)
        (payment_id : Z) (payment : Payment) (new_amount : Q) :
  fee_record_of i db = Some r ->
  paid_amount r = None ->
  get_fee_record i db = (Unhandled ResponseValidationError, db)
  /\ (pc_fee_record_id payment_in = i ->
      create_payment payment_in db = (Unhandled TypeError, db))
  /\ (first_by_id p_id payment_id (payments db) = Some payment ->
      fee_record_id payment = i ->
      delete_payment payment_id db = (Unhandled TypeError, db)
      /\ (~ new_amount == amount payment ->
          update_payment payment_id (only_amount (Value new_amount)) db
          = (Unhandled TypeError, db))).
Proof.
  unfold fee_record_of. intros Hr Hnull. split; [|split].
  - unfold get_fee_record, fee_record_response. now rewrite Hr, Hnull.
  - intros Hi. unfold create_payment, apply_new_payment. now rewrite Hi, Hr, Hnull.
  - intros Hp Hfee. split.
    + unfold delete_payment, apply_removed_payment. now rewrite Hp, Hfee, Hr, Hnull.
    + intros Hne.
      assert (Hg : amount_was_updated (only_amount (Value new_amount)) (amount payment)
                   = true).
      { unfold amount_was_updated. simpl. apply negb_true_iff.
        destruct (Qeq_bool new_amount (amount payment)) eqn:E; [|reflexivity].
        apply Qeq_bool_iff in E. contradiction. }
      unfold update_payment, apply_amended_payment.
      now rewrite Hp, Hg, Hfee, Hr, Hnull.
Qed.

Lemma null_paid_amount_blocks_payments_witness :
  update_fee_record 1 (only_paid_amount Null) db_overpaid
  = (Unhandled ResponseValidationError, db_null_paid_amount)
  /\ get_fee_record 1 db_null_paid_amount
     = (Unhandled ResponseValidationError, db_null_paid_amount)
  /\ create_payment (payment_request 500 1) db_null_paid_amount
     = (Unhandled TypeError, db_null_paid_amount)
  /\ delete_payment 2 db_null_paid_amount
     = (Unhandled TypeError, db_null_paid_amount)
  /\ update_payment 2 (only_amount (Value 0)) db_null_paid_amount
     = (Unhandled TypeError, db_null_paid_amount).
Proof.
  split; [reflexivity|].
  destruct (null_paid_amount_blocks_payments
              1 db_null_paid_amount
              {| fr_id := 1; academic_year := "2024-2025"; term := "1";
                 total_amount := 1000; paid_amount := None;
                 balance := 1000 - (0 + 1000 + 1000); status := PAID;
                 due_date := 739000%Z |}
              (payment_request 500 1) 2 (payment_row 2 1000 1) 0
              eq_refl eq_refl)
    as (Hget & Hcreate & Hrest).
  destruct (Hrest eq_refl eq_refl) as (Hdelete & Hupdate).
  split; [exact Hget|]. split; [exact (Hcreate eq_refl)|].
  split; [exact Hdelete|].
  apply Hupdate. intros H. vm_compute in H. discriminate.
Defined.

End PaymentsExtra.
